(** * OmadaSentimentApp: the feature-sentiment dashboard of [app.py]

    A shallow embedding of the Streamlit script [app.py]: the CSV
    acquisition, the call of the external analyser, the pandas pipeline that
    turns the result table into the per-bucket summary (pivot, rates, score,
    sort) and the rendering calls.

    - Numbers held in a pandas cell are modelled by [number]: the float64
      values the script can produce are exact rationals, the two infinities
      and NaN; rounding is idealised away (a rate is the exact quotient).
    - A [DataFrame] is an ordered row index, an ordered list of column
      names and a cell function; a pandas [Series] taken from a frame is a
      function of the row label.
    - The script is a computation in a small monad that records the
      Streamlit calls made so far (the trace) and either completes or stops
      with an uncaught Python exception.
    - The analyser's result is a table of rows with the columns [bucket],
      [label] and [confidence]; the analysis block is given a second time
      on a result whose columns are not known to be there, with the two
      lookups that can raise [KeyError]. *)

From Stdlib Require Import List String Ascii Bool Arith ZArith QArith Lia.
From Stdlib Require Import Permutation Sorted DecimalString.
Import ListNotations.

Close Scope Q_scope.
Local Open Scope string_scope.
Local Open Scope list_scope.

(* ===================================================================== *)
(** ** Numbers of a pandas cell *)
(* ===================================================================== *)

Module Num.

Local Open Scope Q_scope.

(** An integer count or a float64 value, without rounding. *)
Inductive number : Type :=
| NaN
| NInf
| PInf
| Fin (q : Q).

Definition of_nat (n : nat) : number := Fin (inject_Z (Z.of_nat n)).

Definition isnan (x : number) : bool :=
  match x with NaN => true | _ => false end.

Definition neg (x : number) : number :=
  match x with
  | NaN => NaN
  | NInf => PInf
  | PInf => NInf
  | Fin q => Fin (- q)
  end.

(** [x + y]; opposite infinities cancel to NaN. *)
Definition add (x y : number) : number :=
  match x, y with
  | NaN, _ | _, NaN => NaN
  | PInf, NInf | NInf, PInf => NaN
  | PInf, _ | _, PInf => PInf
  | NInf, _ | _, NInf => NInf
  | Fin a, Fin b => Fin (a + b)
  end.

Definition sub (x y : number) : number := add x (neg y).

(** [x / y] as numpy's true division: no exception on a zero divisor,
    [0 / 0] is NaN and [a / 0] is an infinity of the sign of [a]. *)
Definition div (x y : number) : number :=
  match x, y with
  | NaN, _ | _, NaN => NaN
  | (PInf | NInf), (PInf | NInf) => NaN
  | PInf, Fin b => if Qle_bool 0 b then PInf else NInf
  | NInf, Fin b => if Qle_bool 0 b then NInf else PInf
  | Fin _, (PInf | NInf) => Fin 0
  | Fin a, Fin b =>
      if Qeq_bool b 0 then
        match a ?= 0 with
        | Eq => NaN
        | Gt => PInf
        | Lt => NInf
        end
      else Fin (a / b)
  end.

(** [x <= y] as Python compares floats: false as soon as one side is NaN. *)
Definition leb (x y : number) : bool :=
  match x, y with
  | NaN, _ | _, NaN => false
  | NInf, _ => true
  | _, PInf => true
  | PInf, _ => false
  | _, NInf => false
  | Fin a, Fin b => Qle_bool a b
  end.

(** The order of an ascending sort that puts NaN last. *)
Definition le_na_last (x y : number) : Prop :=
  isnan y = true \/ leb x y = true.

(** [lo <= x <= hi], for a value that is a number at all. *)
Definition within (lo hi : Q) (x : number) : Prop :=
  match x with
  | Fin q => lo <= q /\ q <= hi
  | _ => False
  end.

(** Equality of values: the same float, whatever fraction denotes it. *)
Definition eqv (x y : number) : Prop :=
  match x, y with
  | NaN, NaN | NInf, NInf | PInf, PInf => True
  | Fin a, Fin b => a == b
  | _, _ => False
  end.

End Num.

Import Num.

Declare Scope num_scope.
Delimit Scope num_scope with num.
Bind Scope num_scope with number.
Infix "+" := add : num_scope.
Infix "-" := sub : num_scope.
Infix "/" := div : num_scope.
Infix "<=?" := leb : num_scope.
Infix "==" := eqv (at level 70, no associativity) : num_scope.

(* ===================================================================== *)
(** ** Sorting on keys *)
(* ===================================================================== *)

Section InsertionSort.

Context {A K : Type}.
Variable le : K -> K -> bool.
Variable key : A -> K.

(** [x] goes in front of the first element whose key is not below its
    own. *)
Fixpoint insert (x : A) (l : list A) : list A :=
  match l with
  | [] => [x]
  | y :: l' => if le (key x) (key y) then x :: l else y :: insert x l'
  end.

Fixpoint isort (l : list A) : list A :=
  match l with
  | [] => []
  | x :: l' => insert x (isort l')
  end.

End InsertionSort.

(* ===================================================================== *)
(** ** Python exceptions *)
(* ===================================================================== *)

Module Py.

Inductive exn : Type :=
| FileNotFoundError
| PermissionError
| EmptyDataError
| ParserError
| UnicodeDecodeError
| KeyError (key : string)
| RuntimeError (msg : string).

(** What evaluating an expression gives: a value or a raised exception. *)
Inductive outcome (A : Type) : Type :=
| Ok (a : A)
| Raise (e : exn).

Arguments Ok {A} a.
Arguments Raise {A} e.

Definition is_FileNotFoundError (e : exn) : bool :=
  match e with FileNotFoundError => true | _ => false end.

End Py.

Import Py.

(* ===================================================================== *)
(** ** The pandas operations the script uses *)
(* ===================================================================== *)

Module Pandas.

(** One row of the analyser's result table (columns [bucket], [label],
    [confidence]). *)
Record row : Type := mkRow {
  bucket : string;
  label : string;
  confidence : Q
}.

Definition result_table : Type := list row.

(** [DataFrame.empty] *)
Definition empty (t : result_table) : bool :=
  match t with [] => true | _ => false end.

(** The distinct values of a column of strings, listed in sorted order
    (the keys of a sorted [groupby]). *)
Definition unique_sorted (l : list string) : list string :=
  isort String.leb (fun s => s) (nodup string_dec l).

(** A series indexed by (bucket, label) pairs. *)
Definition counts : Type := list ((string * string) * nat).

Definition group (t : result_table) (b : string) : result_table :=
  filter (fun r => String.eqb (bucket r) b) t.

(** [SeriesGroupBy.value_counts] of one group: one entry per label that
    occurs in it, the most frequent first. Which of two labels of equal
    count comes first differs between pandas versions; the entries are only
    looked up by their key below, so their order is never read. *)
Definition value_counts (b : string) (g : result_table) : counts :=
  let labels := map label g in
  isort (fun m n => Nat.leb n m) snd
    (map (fun l => ((b, l), count_occ string_dec labels l))
         (unique_sorted labels)).

(** [result_df.groupby('bucket')['label'].value_counts()] *)
Definition groupby_value_counts (t : result_table) : counts :=
  flat_map (fun b => value_counts b (group t b))
           (unique_sorted (map bucket t)).

Definition pair_eqb (p q : string * string) : bool :=
  String.eqb (fst p) (fst q) && String.eqb (snd p) (snd q).

Fixpoint lookup (k : string * string) (s : counts) : option nat :=
  match s with
  | [] => None
  | (k', n) :: s' => if pair_eqb k k' then Some n else lookup k s'
  end.

(** The number of rows of the table with the given bucket and label. *)
Definition count_rows (t : result_table) (b l : string) : nat :=
  List.length (filter (fun r => String.eqb (bucket r) b && String.eqb (label r) l) t).

Definition Series : Type := string -> number.

Record DataFrame : Type := mkFrame {
  index : list string;
  columns : list string;
  cell : string -> string -> number   (* row label, column name *)
}.

(** [.unstack(fill_value=fill)]: the inner level becomes the columns. The
    order in which pandas lists the label columns is not the same in all
    versions (sorted, or by first appearance); the model lists them sorted,
    and the script reads columns by name only. *)
Definition unstack (fill : nat) (s : counts) : DataFrame :=
  {| index := unique_sorted (map (fun e => fst (fst e)) s);
     columns := unique_sorted (map (fun e => snd (fst e)) s);
     cell := fun b l =>
       match lookup (b, l) s with
       | Some n => of_nat n
       | None => of_nat fill
       end |}.

Definition has_column (df : DataFrame) (c : string) : bool :=
  existsb (String.eqb c) (columns df).

(** [df.get(c, default)]: the column, or the scalar default (which
    broadcasts over the index in the arithmetic that follows). *)
Definition get (df : DataFrame) (c : string) (default : number) : Series :=
  if has_column df c then fun b => cell df b c else fun _ => default.

(** [df[c] = s]: a new column goes last, an existing one is overwritten. *)
Definition setitem (df : DataFrame) (c : string) (s : Series) : DataFrame :=
  {| index := index df;
     columns := if has_column df c then columns df else columns df ++ [c];
     cell := fun b c' => if String.eqb c' c then s b else cell df b c' |}.

(** [df[c]] *)
Definition getitem (df : DataFrame) (c : string) : outcome Series :=
  if has_column df c then Ok (fun b => cell df b c) else Raise (KeyError c).

Definition series_add (s1 s2 : Series) : Series := fun b => (s1 b + s2 b)%num.
Definition series_sub (s1 s2 : Series) : Series := fun b => (s1 b - s2 b)%num.
Definition series_div (s1 s2 : Series) : Series := fun b => (s1 b / s2 b)%num.

(** The row order of an ascending [sort_values] with [na_position='last']:
    the rows with a key sorted by it, then the rows whose key is NaN. The
    script leaves the sort kind at its default, which does not fix the
    order of rows of equal key: the insertion sort here picks one such
    order, and nothing proved below depends on which. *)
Definition nargsort (key : Series) (idx : list string) : list string :=
  isort Num.leb key (filter (fun b => negb (isnan (key b))) idx)
  ++ filter (fun b => isnan (key b)) idx.

(** [df.sort_values(by=c, ascending=True)] *)
Definition sort_values (df : DataFrame) (c : string) : outcome DataFrame :=
  if has_column df c then
    Ok {| index := nargsort (fun b => cell df b c) (index df);
          columns := columns df;
          cell := cell df |}
  else Raise (KeyError c).

End Pandas.

Import Pandas.

(* ===================================================================== *)
(** ** The script *)
(* ===================================================================== *)

Module App.

(** *** Computations: a trace of Streamlit calls, then a value or a fault *)

(** The loaded reviews (whatever columns the CSV has). *)
Record ReviewsTable : Type := mkReviews {
  rv_columns : list string;
  rv_rows : list (list string)
}.

Definition len (df : ReviewsTable) : nat := List.length (rv_rows df).

Inductive figure : Type :=
| Histogram (data : list Q) (bins : nat)
| BarH (bars : list (string * number)) (colors : list string).

(** One call into the dashboard framework. *)
Inductive event : Type :=
| StSetPageConfig (page_title layout : string)
| StTitle (s : string)
| StWrite (s : string)
| StFileUploader (label : string)
| StButton (label : string)
| StError (s : string)
| StInfo (s : string)
| StWarning (s : string)
| StSuccess (s : string)
| StSubheader (s : string)
| StSpinner (s : string)
| StDataframe (df : DataFrame)
| StPyplot (fig : figure).

Definition M (A : Type) : Type := list event * outcome A.

Definition ret {A} (a : A) : M A := ([], Ok a).

Definition bind {A B} (m : M A) (k : A -> M B) : M B :=
  match m with
  | (tr, Ok a) => let (tr', r) := k a in (tr ++ tr', r)
  | (tr, Raise e) => (tr, Raise e)
  end.

Definition emit (e : event) : M unit := ([e], Ok tt).

Definition lift {A} (o : outcome A) : M A := ([], o).

(** [try: body except <handled>: handler] *)
Definition try_except {A} (body : M A) (handled : exn -> bool)
    (handler : M A) : M A :=
  match body with
  | (tr, Raise e) =>
      if handled e then let (tr', r) := handler in (tr ++ tr', r)
      else (tr, Raise e)
  | done => done
  end.

Definition trace {A} (m : M A) : list event := fst m.
Definition result {A} (m : M A) : outcome A := snd m.

(** Exceptions alone, for the dataframe arithmetic. *)
Definition obind {A B} (o : outcome A) (k : A -> outcome B) : outcome B :=
  match o with
  | Ok a => k a
  | Raise e => Raise e
  end.

Declare Scope app_scope.
Delimit Scope app_scope with app.
Notation "x <- m ; k" := (bind m (fun x => k))
  (at level 61, m at next level, right associativity) : app_scope.
Notation "m ;; k" := (bind m (fun _ => k))
  (at level 61, right associativity) : app_scope.

Declare Scope outcome_scope.
Delimit Scope outcome_scope with outcome.
Notation "x <- m ; k" := (obind m (fun x => k))
  (at level 61, m at next level, right associativity) : outcome_scope.

(** *** What a run of the script is given *)

Record Inputs : Type := mkInputs {
  (** the file system: the content of the file at a path, if there is one *)
  files : string -> option string;
  (** pandas' CSV parser on a file content *)
  parse_csv : string -> outcome ReviewsTable;
  (** the content of the file in the uploader, if one was uploaded *)
  uploaded_file : option string;
  (** whether the button of that label was the one just clicked *)
  clicked : string -> bool;
  (** the external analyser, [pipeline.feature_sentiment.analyze_sentiment] *)
  analyze_sentiment : ReviewsTable -> string -> outcome (option result_table)
}.

(** [pd.read_csv(path)] *)
Definition pd_read_csv (inp : Inputs) (path : string) : outcome ReviewsTable :=
  match files inp path with
  | None => Raise FileNotFoundError
  | Some content => parse_csv inp content
  end.

Definition st_file_uploader (inp : Inputs) (label : string) : M (option string) :=
  bind (emit (StFileUploader label)) (fun _ => ret (uploaded_file inp)).

Definition st_button (inp : Inputs) (label : string) : M bool :=
  bind (emit (StButton label)) (fun _ => ret (clicked inp label)).

Definition str (n : nat) : string := NilEmpty.string_of_uint (Nat.to_uint n).

(** *** The summary computation (lines 80 and 86 to 90) *)

(** [result_df.groupby('bucket')['label'].value_counts().unstack(fill_value=0)] *)
Definition sentiment_summary_pivot (result_df : result_table) : DataFrame :=
  unstack 0 (groupby_value_counts result_df).

(** The four derived columns and the final sort, applied to the pivot. *)
Definition sentiment_scores (sentiment_summary : DataFrame) : outcome DataFrame :=
  (let s1 := setitem sentiment_summary "total"
               (series_add (get sentiment_summary "POSITIVE" (of_nat 0))
                           (get sentiment_summary "NEGATIVE" (of_nat 0))) in
   total <- getitem s1 "total";
   let s2 := setitem s1 "positive_rate"
               (series_div (get s1 "POSITIVE" (of_nat 0)) total) in
   total <- getitem s2 "total";
   let s3 := setitem s2 "negative_rate"
               (series_div (get s2 "NEGATIVE" (of_nat 0)) total) in
   positive_rate <- getitem s3 "positive_rate";
   negative_rate <- getitem s3 "negative_rate";
   let s4 := setitem s3 "sentiment_score"
               (series_sub positive_rate negative_rate) in
   sort_values s4 "sentiment_score")%outcome.

(** The rows whose label is one of the two the rates are computed from. *)
Definition polar (t : result_table) : result_table :=
  filter (fun r => String.eqb (label r) "POSITIVE"
                   || String.eqb (label r) "NEGATIVE") t.

Definition derived_columns : list string :=
  ["total"; "positive_rate"; "negative_rate"; "sentiment_score"].

Definition sentiment_summary (result_df : result_table) : outcome DataFrame :=
  sentiment_scores (sentiment_summary_pivot result_df).

(** *** The script, top to bottom *)

Local Open Scope app_scope.

Definition DEFAULT_CSV : string := "data/processed/noom_google_clean.csv".

Definition header : M unit :=
  emit (StSetPageConfig "Feature-Specific Sentiment Analysis" "wide") ;;
  emit (StTitle "Feature-Specific Sentiment Analysis Tool") ;;
  emit (StWrite "
Upload a cleaned reviews CSV (from previous sentiment step) or use the default processed file to analyze feature-specific sentiment.
").

(** Lines 27 to 44: the value of [df] after the loading block. *)
Definition load (inp : Inputs) : M (option ReviewsTable) :=
  uploaded <- st_file_uploader inp "Upload your cleaned reviews CSV" ;
  match uploaded with
  | Some f =>
      df <- lift (parse_csv inp f) ;
      emit (StWrite ("Loaded " ++ str (len df) ++ " reviews from uploaded CSV.")) ;;
      ret (Some df)
  | None =>
      use_default <- st_button inp "Use default processed CSV" ;
      if use_default then
        try_except
          (df <- lift (pd_read_csv inp DEFAULT_CSV) ;
           emit (StWrite ("Loaded " ++ str (len df) ++ " reviews from default CSV.")) ;;
           ret (Some df))
          is_FileNotFoundError
          (emit (StError ("Default CSV not found at " ++ DEFAULT_CSV
                        ++ ". Please upload a file.")) ;;
           ret None)
      else
        emit (StInfo "Please upload a CSV or click 'Use default processed CSV'.") ;;
        ret None
  end.

Definition histogram_warning : string :=
  "No sentiment data available to plot confidence histogram.".

Definition plot_confidence_histogram (sent_df : option result_table) : M unit :=
  match sent_df with
  | None => emit (StWarning histogram_warning)
  | Some t =>
      if empty t then emit (StWarning histogram_warning)
      else emit (StPyplot (Histogram (map confidence t) 20))
  end.

Definition bar_color (x : number) : string :=
  if (of_nat 0 <=? x)%num then "#4CAF50" else "#F44336".

(** Lines 72 to 100: the branch taken on a non-empty result. *)
Definition render (result_df : result_table) : M unit :=
  emit (StSuccess "Sentiment analysis complete!") ;;
  emit (StSubheader "Model Confidence Distribution") ;;
  plot_confidence_histogram (Some result_df) ;;
  emit (StSubheader "Feature-Level Sentiment Summary") ;;
  let pivot := sentiment_summary_pivot result_df in
  emit (StDataframe pivot) ;;
  emit (StSubheader "Feature Sentiment Scores") ;;
  summary <- lift (sentiment_scores pivot) ;
  score <- lift (getitem summary "sentiment_score") ;
  let colors := map (fun b => bar_color (score b)) (index summary) in
  emit (StPyplot (BarH (map (fun b => (b, score b)) (index summary)) colors)).

Definition no_clauses_warning : string :=
  "No relevant clauses were found with the current keywords.".

(** Lines 66 to 102. *)
Definition analysis (inp : Inputs) (df : option ReviewsTable) : M unit :=
  match df with
  | None => ret tt
  | Some d =>
      run <- st_button inp "Run Feature Specific Analysis" ;
      if run then
        emit (StSpinner "Running sentiment analysis... This may take a few minutes...") ;;
        result_df <- lift (analyze_sentiment inp d "cleaned_content") ;
        match result_df with
        | None => emit (StWarning no_clauses_warning)
        | Some t =>
            if negb (empty t) then render t
            else emit (StWarning no_clauses_warning)
        end
      else ret tt
  end.

(** The three renderings of a result: the two figures and the table. *)
Definition is_rendering (e : event) : bool :=
  match e with
  | StPyplot _ | StDataframe _ => true
  | _ => false
  end.

Definition app (inp : Inputs) : M unit :=
  header ;;
  df <- load inp ;
  analysis inp df.

End App.

Import App.

(** The part of a result row the summary reads. *)
Definition row_key (r : row) : string * string := (bucket r, label r).

Definition row_key_dec (k k' : string * string) : {k = k'} + {k <> k'}.
Proof. decide equality; apply string_dec. Defined.

(* ===================================================================== *)
(** ** The analysis block on a result that is not validated *)
(* ===================================================================== *)

(** The script never checks which columns the analyser's result has.
    A [ResultFrame] is such a result: the names of the columns it has,
    and its rows. A row holds a value for each of the three columns the
    script reads; the value for a column the frame does not have is never
    read. The definitions above are the script on a result that has the
    three columns; those below are the same lines with the column lookups
    of lines 56 and 80 written out. *)
Record ResultFrame : Type := mkResultFrame {
  rf_columns : list string;
  rf_rows : result_table
}.

Definition rf_has (f : ResultFrame) (c : string) : bool :=
  existsb (String.eqb c) (rf_columns f).

(** [DataFrame.empty]: no row, or no column. *)
Definition rf_empty (f : ResultFrame) : bool :=
  match rf_rows f, rf_columns f with
  | [], _ | _, [] => true
  | _, _ => false
  end.

(** [sent_df["confidence"]] *)
Definition rf_confidence (f : ResultFrame) : outcome (list Q) :=
  if rf_has f "confidence" then Ok (map confidence (rf_rows f))
  else Raise (KeyError "confidence").

(** [result_df.groupby('bucket')['label']]: the rows, to be read by these
    two columns. *)
Definition rf_groupby_label (f : ResultFrame) : outcome result_table :=
  if rf_has f "bucket" then
    if rf_has f "label" then Ok (rf_rows f)
    else Raise (KeyError "Column not found: label")
  else Raise (KeyError "bucket").

Definition raw_plot_confidence_histogram (sent_df : option ResultFrame) : M unit :=
  match sent_df with
  | None => emit (StWarning histogram_warning)
  | Some f =>
      if rf_empty f then emit (StWarning histogram_warning)
      else bind (lift (rf_confidence f))
             (fun data => emit (StPyplot (Histogram data 20)))
  end.

(** Lines 72 to 100. *)
Definition raw_render (result_df : ResultFrame) : M unit :=
  (emit (StSuccess "Sentiment analysis complete!") ;;
   emit (StSubheader "Model Confidence Distribution") ;;
   raw_plot_confidence_histogram (Some result_df) ;;
   emit (StSubheader "Feature-Level Sentiment Summary") ;;
   rows <- lift (rf_groupby_label result_df) ;
   let pivot := sentiment_summary_pivot rows in
   emit (StDataframe pivot) ;;
   emit (StSubheader "Feature Sentiment Scores") ;;
   summary <- lift (sentiment_scores pivot) ;
   score <- lift (getitem summary "sentiment_score") ;
   let colors := map (fun b => bar_color (score b)) (index summary) in
   emit (StPyplot (BarH (map (fun b => (b, score b)) (index summary)) colors)))%app.

(** Lines 66 to 102, for an analyser [analyze] whose result is not typed
    (the analyser of [inp] is not used). *)
Definition raw_analysis (inp : Inputs)
    (analyze : ReviewsTable -> string -> outcome (option ResultFrame))
    (df : option ReviewsTable) : M unit :=
  match df with
  | None => ret tt
  | Some d =>
      (run <- st_button inp "Run Feature Specific Analysis" ;
       if run then
         emit (StSpinner "Running sentiment analysis... This may take a few minutes...") ;;
         result_df <- lift (analyze d "cleaned_content") ;
         match result_df with
         | None => emit (StWarning no_clauses_warning)
         | Some f =>
             if negb (rf_empty f) then raw_render f
             else emit (StWarning no_clauses_warning)
         end
       else ret tt)%app
  end.

Definition raw_app (inp : Inputs)
    (analyze : ReviewsTable -> string -> outcome (option ResultFrame)) : M unit :=
  (header ;;
   df <- load inp ;
   raw_analysis inp analyze df)%app.

(* ===================================================================== *)
(** ** Facts about the sort *)
(* ===================================================================== *)

Section InsertionSortFacts.

Context {A K : Type}.
Variable le : K -> K -> bool.
Variable key : A -> K.

(** The keys the order is total and transitive on. *)
Variable dom : K -> Prop.
Hypothesis le_total : forall a b, dom a -> dom b -> le a b = true \/ le b a = true.
Hypothesis le_trans : forall a b c, dom a -> dom b -> dom c ->
  le a b = true -> le b c = true -> le a c = true.

Let R (x y : A) : Prop := le (key x) (key y) = true.
Let inside (l : list A) : Prop := Forall (fun x => dom (key x)) l.

Lemma insert_perm (x : A) (l : list A) :
  Permutation (insert le key x l) (x :: l).
Proof.
  induction l as [|y l IH]; simpl.
  - apply Permutation_refl.
  - destruct (le (key x) (key y)).
    + apply Permutation_refl.
    + apply perm_trans with (y :: x :: l).
      * now apply perm_skip.
      * apply perm_swap.
Qed.

Lemma isort_perm (l : list A) : Permutation (isort le key l) l.
Proof.
  induction l as [|x l IH]; simpl.
  - apply perm_nil.
  - apply perm_trans with (x :: isort le key l).
    + apply insert_perm.
    + now apply perm_skip.
Qed.

Lemma isort_inside (l : list A) : inside l -> inside (isort le key l).
Proof.
  intros H. unfold inside in *.
  eapply Permutation_Forall; [|exact H].
  apply Permutation_sym, isort_perm.
Qed.

Lemma insert_sorted (x : A) (l : list A) :
  dom (key x) -> inside l ->
  StronglySorted R l -> StronglySorted R (insert le key x l).
Proof.
  intros Hx Hl Hs. induction Hs as [|y l Hs IH Hy]; simpl.
  - constructor; constructor.
  - inversion Hl as [|? ? Hdy Hl']; subst.
    destruct (le (key x) (key y)) eqn:E.
    + constructor. { now constructor. }
      constructor; [exact E|].
      rewrite Forall_forall in Hy, Hl' |- *. intros z Hz.
      unfold R. apply le_trans with (b := key y); auto.
      now apply Hy.
    + constructor. { now apply IH. }
      eapply Permutation_Forall.
      { apply Permutation_sym, insert_perm. }
      constructor; [|exact Hy].
      unfold R. destruct (le_total (key x) (key y) Hx Hdy) as [H|H];
        [congruence|exact H].
Qed.

Lemma isort_sorted (l : list A) :
  inside l -> StronglySorted R (isort le key l).
Proof.
  induction l as [|x l IH]; intros H; simpl.
  - constructor.
  - inversion H; subst.
    apply insert_sorted; auto. now apply isort_inside.
Qed.

End InsertionSortFacts.

(* ===================================================================== *)
(** ** Facts about numbers *)
(* ===================================================================== *)

Lemma leb_total (x y : number) :
  isnan x = false -> isnan y = false ->
  (x <=? y)%num = true \/ (y <=? x)%num = true.
Proof.
  destruct x as [| | |a], y as [| | |b]; simpl; intros Hx Hy;
    try discriminate; auto.
  destruct (Qlt_le_dec a b) as [H|H].
  - left. apply Qle_bool_iff. now apply Qlt_le_weak.
  - right. now apply Qle_bool_iff.
Qed.

Lemma leb_trans (x y z : number) :
  isnan x = false -> isnan y = false -> isnan z = false ->
  (x <=? y)%num = true -> (y <=? z)%num = true -> (x <=? z)%num = true.
Proof.
  destruct x as [| | |a], y as [| | |b], z as [| | |c]; simpl;
    intros _ _ _ H1 H2; try discriminate; auto.
  apply Qle_bool_iff in H1, H2. apply Qle_bool_iff.
  now apply Qle_trans with b.
Qed.

(* ===================================================================== *)
(** ** Facts about [sort_values] *)
(* ===================================================================== *)

Section ListFacts.

Context {A : Type}.

Lemma filter_split (f : A -> bool) (l : list A) :
  Permutation (filter (fun x => negb (f x)) l ++ filter f l) l.
Proof.
  induction l as [|x l IH]; simpl; [constructor|].
  destruct (f x); simpl.
  - apply Permutation_sym, Permutation_cons_app, Permutation_sym, IH.
  - now constructor.
Qed.

Lemma filter_filter (f g : A -> bool) (l : list A) :
  filter f (filter g l) = filter (fun x => f x && g x) l.
Proof.
  induction l as [|x l IH]; simpl; [reflexivity|].
  destruct (g x); simpl.
  - rewrite andb_true_r. destruct (f x); now rewrite IH.
  - now rewrite andb_false_r.
Qed.

Lemma filter_none (f : A -> bool) (l : list A) :
  (forall x, In x l -> f x = false) -> filter f l = [].
Proof.
  intros H. induction l as [|x l IH]; simpl; [reflexivity|].
  rewrite (H x) by now left. apply IH. intros y Hy. apply H. now right.
Qed.

Variable R : A -> A -> Prop.

Lemma StronglySorted_all (l : list A) :
  (forall x y, In y l -> R x y) -> StronglySorted R l.
Proof.
  induction l as [|a l IH]; intros H; constructor.
  - apply IH. intros x y Hy. apply H. now right.
  - apply Forall_forall. intros y Hy. apply H. now right.
Qed.

Lemma StronglySorted_app (l1 l2 : list A) :
  StronglySorted R l1 -> StronglySorted R l2 ->
  (forall x y, In x l1 -> In y l2 -> R x y) ->
  StronglySorted R (l1 ++ l2).
Proof.
  intros H1 H2 H. induction H1 as [|a l H1 IH Ha]; simpl; [exact H2|].
  constructor.
  - apply IH. intros x y Hx Hy. apply H; [now right|exact Hy].
  - apply Forall_app. split; [exact Ha|].
    apply Forall_forall. intros y Hy. apply H; [now left|exact Hy].
Qed.

Lemma StronglySorted_weaken (R' : A -> A -> Prop) (l : list A) :
  (forall x y, R x y -> R' x y) ->
  StronglySorted R l -> StronglySorted R' l.
Proof.
  intros H Hs. induction Hs as [|a l Hs IH Ha]; constructor; [exact IH|].
  revert Ha. apply Forall_impl. intros y. apply H.
Qed.

End ListFacts.

Section Nargsort.

Variable key : Series.

Let notnan (b : string) : bool := negb (isnan (key b)).
Let nan (b : string) : bool := isnan (key b).

Lemma notnan_inside (idx : list string) :
  Forall (fun b => isnan (key b) = false) (filter notnan idx).
Proof.
  apply Forall_forall. intros b Hb. apply filter_In in Hb.
  destruct Hb as [_ Hb]. now apply negb_true_iff in Hb.
Qed.

Lemma nargsort_perm (idx : list string) :
  Permutation (nargsort key idx) idx.
Proof.
  unfold nargsort.
  apply perm_trans with (filter notnan idx ++ filter nan idx).
  - apply Permutation_app_tail, isort_perm.
  - apply (filter_split nan).
Qed.

Lemma nargsort_sorted (idx : list string) :
  StronglySorted (fun a b => le_na_last (key a) (key b)) (nargsort key idx).
Proof.
  unfold nargsort. apply StronglySorted_app.
  - apply StronglySorted_weaken
      with (R := fun a b => (key a <=? key b)%num = true).
    + intros x y H. now right.
    + apply (isort_sorted Num.leb key (fun k => isnan k = false)
               leb_total leb_trans), notnan_inside.
  - apply StronglySorted_all. intros x y Hy. left.
    apply filter_In in Hy. tauto.
  - intros x y _ Hy. left. apply filter_In in Hy. tauto.
Qed.

End Nargsort.

(* ===================================================================== *)
(** ** Facts about the pivot *)
(* ===================================================================== *)

Lemma unique_sorted_In (l : list string) (x : string) :
  In x (unique_sorted l) <-> In x l.
Proof.
  unfold unique_sorted. rewrite <- (nodup_In string_dec l x). split.
  - apply Permutation_in, isort_perm.
  - apply Permutation_in, Permutation_sym, isort_perm.
Qed.

Lemma unique_sorted_NoDup (l : list string) : NoDup (unique_sorted l).
Proof.
  unfold unique_sorted.
  apply Permutation_NoDup with (l := nodup string_dec l).
  - apply Permutation_sym, isort_perm.
  - apply NoDup_nodup.
Qed.

Lemma pair_eqb_eq (p q : string * string) : pair_eqb p q = true <-> p = q.
Proof.
  destruct p as [a b], q as [c d]. unfold pair_eqb. simpl.
  rewrite andb_true_iff, !String.eqb_eq. split.
  - intros [-> ->]. reflexivity.
  - intros H. inversion H. auto.
Qed.

Lemma lookup_Some (k : string * string) (n : nat) (s : counts) :
  lookup k s = Some n -> In (k, n) s.
Proof.
  induction s as [|[k' m] s IH]; simpl; [discriminate|].
  destruct (pair_eqb k k') eqn:E.
  - apply pair_eqb_eq in E. intros H. inversion H. subst. now left.
  - intros H. right. now apply IH.
Qed.

Lemma lookup_None (k : string * string) (s : counts) :
  lookup k s = None -> forall n, ~ In (k, n) s.
Proof.
  induction s as [|[k' m] s IH]; simpl; [tauto|].
  destruct (pair_eqb k k') eqn:E; [discriminate|].
  intros H n [Hn|Hn].
  - inversion Hn. subst.
    assert (pair_eqb k k = true) by now apply pair_eqb_eq.
    congruence.
  - now apply (IH H n).
Qed.

Lemma value_counts_In (b : string) (g : result_table) (k : string * string) (n : nat) :
  In (k, n) (value_counts b g) <->
  exists l, k = (b, l) /\ In l (map label g)
            /\ n = count_occ string_dec (map label g) l.
Proof.
  unfold value_counts. split.
  - intros H. apply (Permutation_in _ (isort_perm _ _ _)) in H.
    apply in_map_iff in H. destruct H as [l [H Hl]].
    rewrite unique_sorted_In in Hl. inversion H. subst. exists l. auto.
  - intros [l [-> [Hl ->]]].
    apply (Permutation_in _ (Permutation_sym (isort_perm _ _ _))).
    apply in_map_iff. exists l. split; [reflexivity|].
    now rewrite unique_sorted_In.
Qed.

Lemma groupby_value_counts_In (t : result_table) (b l : string) (n : nat) :
  In ((b, l), n) (groupby_value_counts t) <->
  In b (map bucket t) /\ In l (map label (group t b))
  /\ n = count_occ string_dec (map label (group t b)) l.
Proof.
  unfold groupby_value_counts. rewrite in_flat_map. split.
  - intros [b' [Hb' H]]. rewrite unique_sorted_In in Hb'.
    apply value_counts_In in H. destruct H as [l' [E [Hl ->]]].
    inversion E. subst. auto.
  - intros [Hb [Hl ->]]. exists b. split.
    + now rewrite unique_sorted_In.
    + apply value_counts_In. eauto.
Qed.

Lemma count_occ_group (t : result_table) (b l : string) :
  count_occ string_dec (map label (group t b)) l = count_rows t b l.
Proof.
  unfold group, count_rows. induction t as [|r t IH]; simpl; [reflexivity|].
  destruct (String.eqb (bucket r) b); simpl; [|exact IH].
  destruct (string_dec (label r) l) as [E|E].
  - apply String.eqb_eq in E. rewrite E. simpl. now rewrite IH.
  - apply String.eqb_neq in E. rewrite E. exact IH.
Qed.

Lemma group_label_In (t : result_table) (b l : string) :
  In l (map label (group t b)) <->
  exists r, In r t /\ bucket r = b /\ label r = l.
Proof.
  unfold group. rewrite in_map_iff. split.
  - intros [r [Hl Hr]]. apply filter_In in Hr. destruct Hr as [Hr Hb].
    apply String.eqb_eq in Hb. eauto.
  - intros [r [Hr [Hb Hl]]]. exists r. split; [exact Hl|].
    apply filter_In. split; [exact Hr|]. now apply String.eqb_eq.
Qed.

Lemma count_rows_pos (t : result_table) (b l : string) :
  0 < count_rows t b l <-> exists r, In r t /\ bucket r = b /\ label r = l.
Proof.
  rewrite <- group_label_In, <- count_occ_group.
  symmetry. apply count_occ_In.
Qed.

(** A cell of the pivot is the number of rows of that bucket and label:
    the count [value_counts] recorded, or the fill value 0 where the
    combination has no entry. *)
Lemma pivot_cell (t : result_table) (b l : string) :
  cell (sentiment_summary_pivot t) b l = of_nat (count_rows t b l).
Proof.
  unfold sentiment_summary_pivot, unstack. cbn [cell].
  destruct (lookup (b, l) (groupby_value_counts t)) as [n|] eqn:E.
  - apply lookup_Some, groupby_value_counts_In in E.
    destruct E as [_ [_ ->]]. now rewrite count_occ_group.
  - f_equal. destruct (count_rows t b l) as [|m] eqn:C; [reflexivity|].
    exfalso.
    assert (H : 0 < count_rows t b l) by lia.
    pose proof H as H'. apply count_rows_pos in H'.
    destruct H' as [r [Hr [Hb Hl]]].
    apply (lookup_None _ _ E (count_rows t b l)).
    apply groupby_value_counts_In. repeat split.
    + apply in_map_iff. eauto.
    + apply group_label_In. eauto.
    + now rewrite count_occ_group.
Qed.

Lemma pivot_index (t : result_table) (b : string) :
  In b (index (sentiment_summary_pivot t)) <-> In b (map bucket t).
Proof.
  unfold sentiment_summary_pivot, unstack. cbn [index].
  rewrite unique_sorted_In, in_map_iff. split.
  - intros [[[b' l] n] [E H]]. simpl in E. subst b'.
    now apply groupby_value_counts_In in H.
  - intros H. apply in_map_iff in H. destruct H as [r [Hb Hr]].
    exists ((b, label r), count_occ string_dec (map label (group t b)) (label r)).
    split; [reflexivity|].
    apply groupby_value_counts_In. repeat split.
    + apply in_map_iff. eauto.
    + apply group_label_In. eauto.
Qed.

Lemma pivot_columns (t : result_table) (l : string) :
  In l (columns (sentiment_summary_pivot t)) <-> In l (map label t).
Proof.
  unfold sentiment_summary_pivot, unstack. cbn [columns].
  rewrite unique_sorted_In, in_map_iff. split.
  - intros [[[b l'] n] [E H]]. simpl in E. subst l'.
    apply groupby_value_counts_In in H. destruct H as [_ [H _]].
    apply group_label_In in H. destruct H as [r [Hr [_ Hl]]].
    apply in_map_iff. eauto.
  - intros H. apply in_map_iff in H. destruct H as [r [Hl Hr]].
    exists ((bucket r, l),
            count_occ string_dec (map label (group t (bucket r))) l).
    split; [reflexivity|].
    apply groupby_value_counts_In. repeat split.
    + now apply in_map.
    + apply group_label_In. eauto.
Qed.

(* ===================================================================== *)
(** ** Facts about the derived columns *)
(* ===================================================================== *)

Lemma has_column_In (df : DataFrame) (c : string) :
  has_column df c = true <-> In c (columns df).
Proof.
  unfold has_column. rewrite existsb_exists. split.
  - intros [x [Hx E]]. apply String.eqb_eq in E. now subst.
  - intros H. exists c. split; [exact H|apply String.eqb_refl].
Qed.

Lemma has_column_setitem (df : DataFrame) (c : string) (s : Series) (c' : string) :
  has_column (setitem df c s) c' = String.eqb c' c || has_column df c'.
Proof.
  unfold setitem, has_column. cbn [columns].
  destruct (existsb (String.eqb c) (columns df)) eqn:E.
  - destruct (String.eqb c' c) eqn:E'; [|reflexivity].
    apply String.eqb_eq in E'. subst. exact E.
  - rewrite existsb_app. simpl. rewrite orb_false_r. apply orb_comm.
Qed.

Lemma get_setitem_other (df : DataFrame) (c : string) (s : Series)
    (c' : string) (d : number) (b : string) :
  String.eqb c' c = false ->
  get (setitem df c s) c' d b = get df c' d b.
Proof.
  intros E. unfold get. rewrite has_column_setitem, E. simpl.
  destruct (has_column df c'); [|reflexivity].
  unfold setitem. cbn [cell]. now rewrite E.
Qed.

(** The counts the rates are computed from, read off a pivot. *)
Lemma get_pivot (t : result_table) (l : string) (b : string) :
  get (sentiment_summary_pivot t) l (of_nat 0) b = of_nat (count_rows t b l).
Proof.
  unfold get. destruct (has_column _ l) eqn:E.
  - apply pivot_cell.
  - f_equal. destruct (count_rows t b l) eqn:C; [reflexivity|exfalso].
    assert (H : 0 < count_rows t b l) by lia.
    apply count_rows_pos in H. destruct H as [r [Hr [_ Hl]]].
    assert (has_column (sentiment_summary_pivot t) l = true); [|congruence].
    apply has_column_In, pivot_columns, in_map_iff. eauto.
Qed.

Lemma In_columns_setitem (df : DataFrame) (c : string) (s : Series) (c' : string) :
  In c' (columns (setitem df c s)) <-> c' = c \/ In c' (columns df).
Proof.
  now rewrite <- !has_column_In, has_column_setitem, orb_true_iff,
    String.eqb_eq.
Qed.

Lemma sentiment_scores_spec (df : DataFrame) :
  let P := get df "POSITIVE" (of_nat 0) in
  let N := get df "NEGATIVE" (of_nat 0) in
  let total := fun b => (P b + N b)%num in
  exists df',
    sentiment_scores df = Ok df'
    /\ index df' = nargsort (fun b => cell df' b "sentiment_score") (index df)
    /\ (forall c, In c (columns df') <-> In c (columns df) \/ In c derived_columns)
    /\ (forall b c, ~ In c derived_columns -> cell df' b c = cell df b c)
    /\ (forall b, cell df' b "total" = total b)
    /\ (forall b, cell df' b "positive_rate" = (P b / total b)%num)
    /\ (forall b, cell df' b "negative_rate" = (N b / total b)%num)
    /\ (forall b, cell df' b "sentiment_score"
                  = (P b / total b - N b / total b)%num).
Proof.
  intros P N total. unfold sentiment_scores, getitem.
  repeat (rewrite !has_column_setitem;
          cbn [String.eqb Ascii.eqb Bool.eqb orb andb obind]).
  unfold sort_values.
  repeat (rewrite !has_column_setitem;
          cbn [String.eqb Ascii.eqb Bool.eqb orb andb obind]).
  eexists. split; [reflexivity|]. split; [reflexivity|].
  split; [|split].
  - intros c. cbn [columns]. rewrite !In_columns_setitem.
    unfold derived_columns. simpl In. intuition congruence.
  - intros b c Hc. cbn [cell setitem].
    assert (E : forall d, In d derived_columns -> String.eqb c d = false).
    { intros d Hd. apply String.eqb_neq. intros ->. now apply Hc. }
    unfold derived_columns in E. simpl In in E.
    rewrite !E by tauto. reflexivity.
  - cbn [index cell setitem].
    cbn [String.eqb Ascii.eqb Bool.eqb orb andb].
    unfold series_add, series_sub, series_div.
    repeat split; intros b;
      rewrite ?get_setitem_other by reflexivity; reflexivity.
Qed.

(** The summary of a result table: it is always produced, its rows are
    the pivot's in sorted order, and its derived columns hold the values
    of the four assignments, computed from the two counts of the row. *)
Lemma sentiment_summary_spec (t : result_table) :
  let P := fun b => of_nat (count_rows t b "POSITIVE") in
  let N := fun b => of_nat (count_rows t b "NEGATIVE") in
  exists df,
    sentiment_summary t = Ok df
    /\ index df = nargsort (fun b => cell df b "sentiment_score")
                           (index (sentiment_summary_pivot t))
    /\ (forall c, In c (columns df) <->
                  In c (map label t) \/ In c derived_columns)
    /\ (forall b c, ~ In c derived_columns ->
                    cell df b c = of_nat (count_rows t b c))
    /\ (forall b, cell df b "total" = (P b + N b)%num)
    /\ (forall b, cell df b "positive_rate" = (P b / (P b + N b))%num)
    /\ (forall b, cell df b "negative_rate" = (N b / (P b + N b))%num)
    /\ (forall b, cell df b "sentiment_score"
                  = (P b / (P b + N b) - N b / (P b + N b))%num).
Proof.
  intros P N. unfold sentiment_summary.
  destruct (sentiment_scores_spec (sentiment_summary_pivot t))
    as [df [E [Hi [Hc [Ho [Ht [Hp [Hn Hs]]]]]]]].
  exists df. split; [exact E|]. split; [exact Hi|].
  split; [|split].
  - intros c. rewrite Hc. now rewrite pivot_columns.
  - intros b c H. rewrite (Ho b c H). apply pivot_cell.
  - unfold P, N. repeat split; intros b;
      rewrite ?Ht, ?Hp, ?Hn, ?Hs, !get_pivot; reflexivity.
Qed.

Lemma summary_index_In (t : result_table) (df : DataFrame) (b : string) :
  index df = nargsort (fun b => cell df b "sentiment_score")
                      (index (sentiment_summary_pivot t)) ->
  In b (index df) <-> In b (map bucket t).
Proof.
  intros ->. rewrite <- pivot_index. split.
  - apply Permutation_in, nargsort_perm.
  - apply Permutation_in, Permutation_sym, nargsort_perm.
Qed.

(** *** Arithmetic of the rates *)

Local Open Scope Q_scope.

Lemma total_nonzero (p n : nat) :
  (0 < p + n)%nat ->
  ~ inject_Z (Z.of_nat p) + inject_Z (Z.of_nat n) == 0.
Proof.
  intros H E. unfold Qeq, Qplus, inject_Z in E. simpl in E. lia.
Qed.

Lemma rate_defined (p n k : nat) :
  (0 < p + n)%nat ->
  (of_nat k / (of_nat p + of_nat n))%num
  = Fin (inject_Z (Z.of_nat k)
         / (inject_Z (Z.of_nat p) + inject_Z (Z.of_nat n))).
Proof.
  intros H. unfold of_nat, add, div.
  destruct (Qeq_bool _ 0) eqn:E; [|reflexivity].
  apply Qeq_bool_iff in E. now apply total_nonzero in E.
Qed.

Lemma rates_sum (a b : Q) : ~ a + b == 0 -> a / (a + b) + b / (a + b) == 1.
Proof. intros H. field. exact H. Qed.

Lemma score_bounds (a b : Q) :
  0 <= a -> 0 <= b -> 0 < a + b ->
  -1 <= a / (a + b) + - (b / (a + b)) <= 1.
Proof.
  intros Ha Hb Hab.
  assert (E : a / (a + b) + - (b / (a + b)) == (a - b) / (a + b)).
  { field. intros H. rewrite H in Hab. now apply Qlt_irrefl in Hab. }
  rewrite E. split.
  - apply Qle_shift_div_l; [exact Hab|].
    setoid_replace (-1 * (a + b)) with (- a - b) by ring.
    apply Qplus_le_compat; [|apply Qle_refl].
    apply Qle_trans with 0; [|exact Ha].
    setoid_replace 0 with (- 0) by reflexivity. now apply Qopp_le_compat.
  - apply Qle_shift_div_r; [exact Hab|].
    setoid_replace (1 * (a + b)) with (a + b) by ring.
    unfold Qminus. apply Qplus_le_compat; [apply Qle_refl|].
    apply Qle_trans with 0; [|exact Hb].
    setoid_replace 0 with (- 0) by reflexivity. now apply Qopp_le_compat.
Qed.

Lemma count_nonneg (n : nat) : 0 <= inject_Z (Z.of_nat n).
Proof. unfold Qle, inject_Z. simpl. lia. Qed.

Lemma total_pos (p n : nat) :
  (0 < p + n)%nat -> 0 < inject_Z (Z.of_nat p) + inject_Z (Z.of_nat n).
Proof. intros H. unfold Qlt, Qplus, inject_Z. simpl. lia. Qed.

Close Scope Q_scope.

(* ===================================================================== *)
(** ** The summary computation: pivot, derived columns, order *)
(* ===================================================================== *)

(** C1. For every result table the summary is produced and carries the
    four derived columns with the values of their formulas: [total] is the
    POSITIVE count plus the NEGATIVE count of the bucket, [positive_rate]
    and [negative_rate] are the two counts divided by [total], and
    [sentiment_score] is their difference. On the three rows
    (price, POSITIVE), (price, POSITIVE), (price, NEGATIVE) the row of
    "price" reads POSITIVE 2, NEGATIVE 1, total 3, rates 2/3 and 1/3,
    score 1/3. *)
Theorem summary_derived_columns :
  (forall t : result_table, exists df,
     sentiment_summary t = Ok df
     /\ (forall c, In c derived_columns -> In c (columns df))
     /\ forall b,
          let P := of_nat (count_rows t b "POSITIVE") in
          let N := of_nat (count_rows t b "NEGATIVE") in
          cell df b "total" = (P + N)%num
          /\ cell df b "positive_rate" = (P / cell df b "total")%num
          /\ cell df b "negative_rate" = (N / cell df b "total")%num
          /\ cell df b "sentiment_score"
             = (cell df b "positive_rate" - cell df b "negative_rate")%num)
  /\ (forall c1 c2 c3 : Q, exists df,
        sentiment_summary [mkRow "price" "POSITIVE" c1;
                           mkRow "price" "POSITIVE" c2;
                           mkRow "price" "NEGATIVE" c3] = Ok df
        /\ index df = ["price"]
        /\ cell df "price" "POSITIVE" = of_nat 2
        /\ cell df "price" "NEGATIVE" = of_nat 1
        /\ (cell df "price" "total" == of_nat 3)%num
        /\ (cell df "price" "positive_rate" == Fin (2 # 3))%num
        /\ (cell df "price" "negative_rate" == Fin (1 # 3))%num
        /\ (cell df "price" "sentiment_score" == Fin (1 # 3))%num).
Proof.
  split.
  - intros t.
    destruct (sentiment_summary_spec t)
      as [df [E [_ [Hc [_ [Ht [Hp [Hn Hs]]]]]]]].
    exists df. split; [exact E|]. split.
    + intros c H. apply Hc. now right.
    + intros b P N. rewrite Hs, Hp, Hn, Ht. repeat split; reflexivity.
  - intros c1 c2 c3. eexists. split; [reflexivity|].
    vm_compute. repeat split; reflexivity.
Qed.

(** C2. The pivot of a result table has exactly one row per distinct
    bucket of the table and exactly one column per distinct label, each
    cell is the number of rows of that bucket and label, and a combination
    that no row of the table has is filled with 0. *)
Theorem pivot_rows_and_columns (t : result_table) :
  let pivot := sentiment_summary_pivot t in
  NoDup (index pivot)
  /\ (forall b, In b (index pivot) <-> In b (map bucket t))
  /\ NoDup (columns pivot)
  /\ (forall l, In l (columns pivot) <-> In l (map label t))
  /\ (forall b l, In b (index pivot) -> In l (columns pivot) ->
        cell pivot b l = of_nat (count_rows t b l))
  /\ (forall b l, In b (index pivot) -> In l (columns pivot) ->
        ~ (exists r, In r t /\ bucket r = b /\ label r = l) ->
        cell pivot b l = of_nat 0).
Proof.
  intros pivot. repeat split.
  - apply unique_sorted_NoDup.
  - apply pivot_index.
  - apply pivot_index.
  - apply unique_sorted_NoDup.
  - apply pivot_columns.
  - apply pivot_columns.
  - intros b l _ _. apply pivot_cell.
  - intros b l _ _ H. unfold pivot. rewrite pivot_cell. f_equal.
    destruct (count_rows t b l) eqn:C; [reflexivity|].
    exfalso. apply H, count_rows_pos. lia.
Qed.

(** C3. When the table has no label other than POSITIVE and NEGATIVE, a
    bucket of the summary whose total is positive has
    [positive_rate + negative_rate] equal to 1. *)
Theorem rates_sum_to_one (t : result_table) (b : string) :
  Forall (fun r => label r = "POSITIVE" \/ label r = "NEGATIVE") t ->
  In b (map bucket t) ->
  0 < count_rows t b "POSITIVE" + count_rows t b "NEGATIVE" ->
  exists df,
    sentiment_summary t = Ok df
    /\ In b (index df)
    /\ (cell df b "total"
        == of_nat (count_rows t b "POSITIVE" + count_rows t b "NEGATIVE"))%num
    /\ (cell df b "positive_rate" + cell df b "negative_rate" == Fin 1)%num.
Proof.
  intros _ Hb Hpos.
  destruct (sentiment_summary_spec t)
    as [df [E [Hi [_ [_ [Ht [Hp [Hn _]]]]]]]].
  exists df. split; [exact E|]. split; [now apply (summary_index_In t)|].
  rewrite Ht, Hp, Hn, !rate_defined by exact Hpos. split.
  - unfold of_nat, add, eqv, Qeq, Qplus, inject_Z. simpl. lia.
  - apply rates_sum. now apply total_nonzero.
Qed.

Lemma rates_sum_to_one_witness :
  exists df,
    sentiment_summary [mkRow "price" "POSITIVE" (9 # 10);
                       mkRow "support" "NEGATIVE" (8 # 10);
                       mkRow "price" "NEGATIVE" (7 # 10)] = Ok df
    /\ In "price" (index df)
    /\ (cell df "price" "total" == of_nat 2)%num
    /\ (cell df "price" "positive_rate" + cell df "price" "negative_rate"
        == Fin 1)%num.
Proof.
  apply (rates_sum_to_one
           [mkRow "price" "POSITIVE" (9 # 10);
            mkRow "support" "NEGATIVE" (8 # 10);
            mkRow "price" "NEGATIVE" (7 # 10)] "price").
  - repeat (apply Forall_cons; [simpl; auto|]). apply Forall_nil.
  - simpl. auto.
  - vm_compute. lia.
Defined.

Lemma score_defined_iff (p n : nat) :
  isnan (of_nat p / (of_nat p + of_nat n)
         - of_nat n / (of_nat p + of_nat n))%num = false
  <-> 0 < p + n.
Proof.
  destruct (Nat.eq_dec (p + n) 0) as [Z|Z].
  - assert (p = 0) as -> by lia. assert (n = 0) as -> by lia.
    simpl. split; [discriminate|lia].
  - rewrite !rate_defined by lia. simpl. split; [lia|reflexivity].
Qed.

(** C4, as the code has it. The rows of the final summary are the
    buckets of the table, each once, and their score is the one computed
    from the bucket's two counts. The buckets with a POSITIVE or a
    NEGATIVE row come first, in ascending order of that score; the buckets
    with neither, whose score is NaN, come after them. Nothing is said of
    the order of two rows of equal score, nor of the order among the rows
    without a score. *)
Theorem summary_sorted_nan_last (t : result_table) :
  exists df scored unscored,
    let score := fun b => cell df b "sentiment_score" in
    let P := fun b => count_rows t b "POSITIVE" in
    let N := fun b => count_rows t b "NEGATIVE" in
    sentiment_summary t = Ok df
    /\ index df = scored ++ unscored
    /\ NoDup (index df)
    /\ (forall b, In b (index df) <-> In b (map bucket t))
    /\ (forall b, score b
                  = (of_nat (P b) / (of_nat (P b) + of_nat (N b))
                     - of_nat (N b) / (of_nat (P b) + of_nat (N b)))%num)
    /\ Forall (fun b => 0 < P b + N b) scored
    /\ StronglySorted (fun a b => (score a <=? score b)%num = true) scored
    /\ Forall (fun b => P b + N b = 0 /\ score b = NaN) unscored.
Proof.
  destruct (sentiment_summary_spec t)
    as [df [E [Hi [_ [_ [_ [_ [_ Hs]]]]]]]].
  set (score := fun b => cell df b "sentiment_score") in *.
  set (idx := index (sentiment_summary_pivot t)) in *.
  exists df,
    (isort Num.leb score (filter (fun b => negb (isnan (score b))) idx)),
    (filter (fun b => isnan (score b)) idx).
  cbv zeta. split; [exact E|]. split; [exact Hi|]. split; [|split; [|split]].
  - rewrite Hi. apply Permutation_NoDup with (l := idx).
    + apply Permutation_sym, nargsort_perm.
    + apply unique_sorted_NoDup.
  - intros b. now apply (summary_index_In t).
  - exact Hs.
  - split; [|split].
    + apply Forall_forall. intros b Hb.
      apply (Permutation_in _ (isort_perm Num.leb score _)) in Hb.
      apply filter_In in Hb. destruct Hb as [_ Hb].
      apply negb_true_iff in Hb. unfold score in Hb. rewrite Hs in Hb.
      now apply score_defined_iff.
    + apply (isort_sorted Num.leb score (fun k => isnan k = false)
               leb_total leb_trans), notnan_inside.
    + apply Forall_forall. intros b Hb.
      apply filter_In in Hb. destruct Hb as [_ Hb]. split.
      * destruct (Nat.eq_dec (count_rows t b "POSITIVE"
                              + count_rows t b "NEGATIVE") 0) as [Z|Z];
          [exact Z|].
        unfold score in Hb. rewrite Hs in Hb.
        assert (0 < count_rows t b "POSITIVE" + count_rows t b "NEGATIVE")
          as Hpos by lia.
        apply score_defined_iff in Hpos. congruence.
      * unfold score in Hb. revert Hb.
        destruct (cell df b "sentiment_score"); simpl; intros Hb;
          try discriminate Hb. reflexivity.
Qed.

(** C4, as stated, fails: when a bucket has neither a POSITIVE nor a
    NEGATIVE row its NaN score is placed last, after a row of score 1, and
    the scores of the final table are not in ascending order. *)
Lemma summary_not_ascending :
  exists df,
    sentiment_summary [mkRow "app" "NEUTRAL" (6 # 10);
                       mkRow "price" "POSITIVE" (9 # 10)] = Ok df
    /\ index df = ["price"; "app"]
    /\ (cell df "price" "sentiment_score" == Fin 1)%num
    /\ cell df "app" "sentiment_score" = NaN
    /\ ~ StronglySorted
           (fun a b => (cell df a "sentiment_score"
                        <=? cell df b "sentiment_score")%num = true)
           (index df).
Proof.
  eexists. split; [reflexivity|]. vm_compute.
  repeat split; try discriminate.
  intros H. apply StronglySorted_inv in H. destruct H as [_ H].
  inversion H as [|? ? C _]. discriminate C.
Qed.

(** C5, as the code has it. A bucket of the summary whose POSITIVE and
    NEGATIVE counts are not both zero has its [sentiment_score] within
    [-1, 1]. *)
Theorem score_within_bounds (t : result_table) (b : string) :
  In b (map bucket t) ->
  0 < count_rows t b "POSITIVE" + count_rows t b "NEGATIVE" ->
  exists df,
    sentiment_summary t = Ok df
    /\ In b (index df)
    /\ within (-1) 1 (cell df b "sentiment_score").
Proof.
  intros Hb Hpos.
  destruct (sentiment_summary_spec t)
    as [df [E [Hi [_ [_ [_ [_ [_ Hs]]]]]]]].
  exists df. split; [exact E|]. split; [now apply (summary_index_In t)|].
  rewrite Hs, !rate_defined by exact Hpos.
  apply score_bounds; auto using count_nonneg, total_pos.
Qed.

Lemma score_within_bounds_witness :
  exists df,
    sentiment_summary [mkRow "price" "NEGATIVE" (9 # 10);
                       mkRow "price" "NEUTRAL" (6 # 10)] = Ok df
    /\ In "price" (index df)
    /\ within (-1) 1 (cell df "price" "sentiment_score").
Proof.
  apply (score_within_bounds
           [mkRow "price" "NEGATIVE" (9 # 10);
            mkRow "price" "NEUTRAL" (6 # 10)] "price").
  - simpl. auto.
  - vm_compute. lia.
Defined.

(** C5, as stated, fails: a bucket whose rows all carry another label is a
    row of the summary and its score is NaN, which is not within [-1, 1]. *)
Lemma score_out_of_bounds :
  exists df,
    sentiment_summary [mkRow "price" "NEUTRAL" (6 # 10)] = Ok df
    /\ In "price" (index df)
    /\ cell df "price" "sentiment_score" = NaN
    /\ ~ within (-1) 1 (cell df "price" "sentiment_score").
Proof.
  eexists. split; [reflexivity|]. vm_compute. repeat split; auto.
Qed.

(** C6. The rates are computed without a test of [total]: for a bucket of
    the table with neither a POSITIVE nor a NEGATIVE row the summary is
    still produced, [total] is 0 and both divisions are 0 / 0, so both
    rates, and the score with them, are undefined (NaN). *)
Theorem zero_total_rates_undefined (t : result_table) (b : string) :
  In b (map bucket t) ->
  count_rows t b "POSITIVE" = 0 ->
  count_rows t b "NEGATIVE" = 0 ->
  exists df,
    sentiment_summary t = Ok df
    /\ In b (index df)
    /\ (cell df b "total" == of_nat 0)%num
    /\ cell df b "positive_rate" = (of_nat 0 / cell df b "total")%num
    /\ cell df b "negative_rate" = (of_nat 0 / cell df b "total")%num
    /\ cell df b "positive_rate" = NaN
    /\ cell df b "negative_rate" = NaN
    /\ cell df b "sentiment_score" = NaN.
Proof.
  intros Hb HP HN.
  destruct (sentiment_summary_spec t)
    as [df [E [Hi [_ [_ [Ht [Hp [Hn Hs]]]]]]]].
  exists df. split; [exact E|]. split; [now apply (summary_index_In t)|].
  rewrite Hs, Hp, Hn, Ht, HP, HN. repeat split; reflexivity.
Qed.

Lemma zero_total_rates_undefined_witness :
  exists df,
    sentiment_summary [mkRow "price" "POSITIVE" (9 # 10);
                       mkRow "ui" "NEUTRAL" (6 # 10)] = Ok df
    /\ In "ui" (index df)
    /\ (cell df "ui" "total" == of_nat 0)%num
    /\ cell df "ui" "positive_rate" = (of_nat 0 / cell df "ui" "total")%num
    /\ cell df "ui" "negative_rate" = (of_nat 0 / cell df "ui" "total")%num
    /\ cell df "ui" "positive_rate" = NaN
    /\ cell df "ui" "negative_rate" = NaN
    /\ cell df "ui" "sentiment_score" = NaN.
Proof.
  apply (zero_total_rates_undefined
           [mkRow "price" "POSITIVE" (9 # 10);
            mkRow "ui" "NEUTRAL" (6 # 10)] "ui").
  - simpl. auto.
  - reflexivity.
  - reflexivity.
Defined.

Lemma count_rows_polar (t : result_table) (b l : string) :
  l = "POSITIVE" \/ l = "NEGATIVE" ->
  count_rows (polar t) b l = count_rows t b l.
Proof.
  intros Hl. unfold count_rows, polar. rewrite filter_filter.
  f_equal. apply filter_ext. intros r.
  destruct (String.eqb (label r) l) eqn:E.
  - apply String.eqb_eq in E. rewrite E.
    destruct Hl as [-> | ->]; simpl; now rewrite andb_true_r.
  - now rewrite andb_false_r.
Qed.

(** C9. The identity needs no assumption on the labels: in every bucket
    with a POSITIVE or a NEGATIVE row [positive_rate + negative_rate] is 1,
    whatever other labels the table has; and rows of other labels change
    nothing in [total], the rates and the score, which are those of the
    table with these rows removed. *)
Theorem other_labels_do_not_matter (t : result_table) :
  exists df df',
    sentiment_summary t = Ok df
    /\ sentiment_summary (polar t) = Ok df'
    /\ (forall b c, In c derived_columns -> cell df b c = cell df' b c)
    /\ (forall b,
          0 < count_rows t b "POSITIVE" + count_rows t b "NEGATIVE" ->
          (cell df b "positive_rate" + cell df b "negative_rate"
           == Fin 1)%num).
Proof.
  destruct (sentiment_summary_spec t)
    as [df [E [_ [_ [_ [Ht [Hp [Hn Hs]]]]]]]].
  destruct (sentiment_summary_spec (polar t))
    as [df' [E' [_ [_ [_ [Ht' [Hp' [Hn' Hs']]]]]]]].
  exists df, df'. split; [exact E|]. split; [exact E'|]. split.
  - intros b c Hc. unfold derived_columns in Hc. simpl in Hc.
    destruct Hc as [<- | [<- | [<- | [<- | []]]]];
      rewrite ?Ht, ?Hp, ?Hn, ?Hs, ?Ht', ?Hp', ?Hn', ?Hs',
        !count_rows_polar by auto; reflexivity.
  - intros b Hpos. rewrite Hp, Hn, !rate_defined by exact Hpos.
    apply rates_sum. now apply total_nonzero.
Qed.

Lemma other_labels_do_not_matter_witness :
  let t := [mkRow "price" "POSITIVE" (9 # 10);
            mkRow "price" "NEUTRAL" (6 # 10);
            mkRow "price" "MIXED" (5 # 10);
            mkRow "ui" "NEUTRAL" (6 # 10);
            mkRow "price" "NEGATIVE" (7 # 10)] in
  exists df df',
    sentiment_summary t = Ok df
    /\ sentiment_summary (polar t) = Ok df'
    /\ (forall b c, In c derived_columns -> cell df b c = cell df' b c)
    /\ (cell df "price" "positive_rate" + cell df "price" "negative_rate"
        == Fin 1)%num.
Proof.
  intros t.
  destruct (other_labels_do_not_matter t) as [df [df' [E [E' [H1 H2]]]]].
  exists df, df'. repeat split; try assumption.
  apply H2. vm_compute. lia.
Defined.

(* ===================================================================== *)
(** ** Facts about runs of the script *)
(* ===================================================================== *)

Lemma trace_bind {A B} (m : M A) (k : A -> M B) :
  trace (bind m k)
  = trace m ++ match result m with Ok a => trace (k a) | Raise _ => [] end.
Proof.
  destruct m as [tr [a|e]]; simpl.
  - now destruct (k a).
  - now rewrite app_nil_r.
Qed.

Lemma result_bind {A B} (m : M A) (k : A -> M B) :
  result (bind m k)
  = match result m with Ok a => result (k a) | Raise e => Raise e end.
Proof.
  destruct m as [tr [a|e]]; simpl; [|reflexivity]. now destruct (k a).
Qed.

Section TraceInvariant.

(** A property of events that every call of a computation has. *)
Variable good : event -> Prop.

Lemma all_bind {A B} (m : M A) (k : A -> M B) :
  Forall good (trace m) ->
  (forall a, result m = Ok a -> Forall good (trace (k a))) ->
  Forall good (trace (bind m k)).
Proof.
  intros Hm Hk. rewrite trace_bind. apply Forall_app. split; [exact Hm|].
  destruct (result m) as [a|e]; [now apply Hk|constructor].
Qed.

Lemma all_emit (e : event) : good e -> Forall good (trace (emit e)).
Proof. intros H. simpl. now constructor. Qed.

Lemma all_ret {A} (a : A) : Forall good (trace (ret a)).
Proof. constructor. Qed.

Lemma all_lift {A} (o : outcome A) : Forall good (trace (lift o)).
Proof. constructor. Qed.

Lemma all_try_except {A} (body handler : M A) (handled : exn -> bool) :
  Forall good (trace body) -> Forall good (trace handler) ->
  Forall good (trace (try_except body handled handler)).
Proof.
  intros Hb Hh. destruct body as [tr [a|e]]; simpl; [exact Hb|].
  destruct (handled e); [|exact Hb].
  destruct handler as [tr' r]. simpl. apply Forall_app. now split.
Qed.

End TraceInvariant.

(** Solves [Forall good (trace m)] for a computation built from the
    operations above, leaving the events to [tac]. *)
Ltac all_events tac :=
  repeat first
    [ apply all_ret
    | apply all_lift
    | apply all_emit; tac
    | apply all_try_except
    | apply all_bind; [|intros ? _]
    | match goal with
      | |- Forall _ (trace (match ?x with _ => _ end)) => destruct x eqn:?
      | |- Forall _ (trace (if ?x then _ else _)) => destruct x eqn:?
      end ].

Lemma header_all (good : event -> Prop) :
  (forall e, In e (trace header) -> good e) -> Forall good (trace header).
Proof. intros H. now apply Forall_forall. Qed.

Lemma load_all (good : event -> Prop) (inp : Inputs) :
  (forall s, good (StFileUploader s)) -> (forall s, good (StButton s)) ->
  (forall s, good (StWrite s)) -> (forall s, good (StError s)) ->
  (forall s, good (StInfo s)) ->
  Forall good (trace (load inp)).
Proof.
  intros H1 H2 H3 H4 H5. unfold load, st_file_uploader, st_button.
  all_events auto.
Qed.

Lemma app_unfold (inp : Inputs) (tr : list event) (df : option ReviewsTable) :
  load inp = (tr, Ok df) ->
  app inp = (trace header ++ tr ++ trace (analysis inp df),
             result (analysis inp df)).
Proof.
  intros H. rewrite (surjective_pairing (app inp)).
  change (fst (app inp)) with (trace (app inp)).
  change (snd (app inp)) with (result (app inp)).
  unfold app. rewrite !trace_bind, !result_bind, H. reflexivity.
Qed.

(** C7. Whatever reviews table was loaded, when the analysis is run and
    [analyze_sentiment] returns [None] or an empty table, the run ends
    normally after the single warning that nothing was found: no
    histogram, no summary table and no bar chart is rendered, and
    [plot_confidence_histogram] is not called at all (called on such a
    value it would itself only warn and return). *)
Theorem empty_result_warns (inp : Inputs) (tr : list event) (df : ReviewsTable) :
  load inp = (tr, Ok (Some df)) ->
  clicked inp "Run Feature Specific Analysis" = true ->
  analyze_sentiment inp df "cleaned_content" = Ok None
  \/ analyze_sentiment inp df "cleaned_content" = Ok (Some []) ->
  app inp
  = (trace header ++ tr
     ++ [StButton "Run Feature Specific Analysis";
         StSpinner "Running sentiment analysis... This may take a few minutes...";
         StWarning "No relevant clauses were found with the current keywords."],
     Ok tt)
  /\ Forall (fun e => is_rendering e = false) (trace (app inp))
  /\ ~ In (StWarning histogram_warning) (trace (app inp))
  /\ plot_confidence_histogram None = ([StWarning histogram_warning], Ok tt)
  /\ plot_confidence_histogram (Some []) = ([StWarning histogram_warning], Ok tt).
Proof.
  intros Hload Hrun Hres.
  assert (E : analysis inp (Some df)
              = ([StButton "Run Feature Specific Analysis";
                  StSpinner "Running sentiment analysis... This may take a few minutes...";
                  StWarning no_clauses_warning], Ok tt)).
  { unfold analysis, st_button. simpl. rewrite Hrun. simpl.
    destruct Hres as [-> | ->]; reflexivity. }
  assert (Happ := app_unfold inp tr (Some df) Hload). rewrite E in Happ.
  split; [exact Happ|].
  assert (Htr : Forall (fun e => is_rendering e = false /\
                                 e <> StWarning histogram_warning) tr).
  { replace tr with (trace (load inp)) by now rewrite Hload.
    apply load_all; intros s; split; (reflexivity || discriminate). }
  rewrite Happ. cbn [trace fst]. repeat split; try reflexivity.
  - apply Forall_app. split; [repeat constructor|].
    apply Forall_app. split; [|repeat constructor].
    revert Htr. apply Forall_impl. tauto.
  - rewrite !in_app_iff. intros [H | [H | H]].
    + simpl in H. repeat destruct H as [H | H]; try discriminate H; exact H.
    + rewrite Forall_forall in Htr. now apply (Htr _ H).
    + simpl in H. repeat destruct H as [H | H]; try discriminate H; exact H.
Qed.

Lemma empty_result_warns_witness :
  let reviews := mkReviews ["cleaned_content"] [["too expensive"]; ["love it"]] in
  let inp := mkInputs (fun _ => None) (fun _ => Ok reviews) (Some "cleaned_content
too expensive
love it
")
               (String.eqb "Run Feature Specific Analysis")
               (fun _ _ => Ok (Some [])) in
  trace (app inp)
  = trace header
    ++ [StFileUploader "Upload your cleaned reviews CSV";
        StWrite "Loaded 2 reviews from uploaded CSV.";
        StButton "Run Feature Specific Analysis";
        StSpinner "Running sentiment analysis... This may take a few minutes...";
        StWarning "No relevant clauses were found with the current keywords."]
  /\ result (app inp) = Ok tt.
Proof.
  intros reviews inp.
  destruct (empty_result_warns inp
              [StFileUploader "Upload your cleaned reviews CSV";
               StWrite "Loaded 2 reviews from uploaded CSV."]
              reviews) as [E _].
  - reflexivity.
  - reflexivity.
  - right. reflexivity.
  - rewrite E. split; reflexivity.
Defined.

(** C8. When no file is uploaded, the default CSV is requested and there
    is no file at [data/processed/noom_google_clean.csv], the run shows the
    error message, leaves [df] at [None], does nothing further and ends
    normally. No other failure of loading is handled: any other exception
    of reading the default file, and any exception of reading an uploaded
    file, ends the run as an uncaught fault. *)
Theorem missing_default_file :
  (forall inp,
     uploaded_file inp = None ->
     clicked inp "Use default processed CSV" = true ->
     files inp DEFAULT_CSV = None ->
     load inp
     = ([StFileUploader "Upload your cleaned reviews CSV";
         StButton "Use default processed CSV";
         StError "Default CSV not found at data/processed/noom_google_clean.csv. Please upload a file."],
        Ok None)
     /\ app inp = (trace header ++ trace (load inp), Ok tt))
  /\ (forall inp e,
        uploaded_file inp = None ->
        clicked inp "Use default processed CSV" = true ->
        pd_read_csv inp DEFAULT_CSV = Raise e ->
        e <> FileNotFoundError ->
        result (load inp) = Raise e /\ result (app inp) = Raise e)
  /\ (forall inp f e,
        uploaded_file inp = Some f ->
        parse_csv inp f = Raise e ->
        result (load inp) = Raise e /\ result (app inp) = Raise e).
Proof.
  assert (Hfault : forall inp e,
            result (load inp) = Raise e -> result (app inp) = Raise e).
  { intros inp e H. unfold app. rewrite !result_bind. simpl.
    now rewrite H. }
  split; [|split].
  - intros inp Hup Hclick Hfile.
    assert (E : load inp
                = ([StFileUploader "Upload your cleaned reviews CSV";
                    StButton "Use default processed CSV";
                    StError "Default CSV not found at data/processed/noom_google_clean.csv. Please upload a file."],
                   Ok None)).
    { unfold load, st_file_uploader, st_button, pd_read_csv.
      simpl. rewrite Hup. simpl. rewrite Hclick, Hfile. reflexivity. }
    split; [exact E|].
    rewrite (app_unfold inp _ None E), E. reflexivity.
  - intros inp e Hup Hclick Hread Hne.
    assert (E : result (load inp) = Raise e).
    { unfold load, st_file_uploader, st_button.
      simpl. rewrite Hup. simpl. rewrite Hclick, Hread. simpl.
      destruct e; try reflexivity. now elim Hne. }
    split; [exact E|now apply Hfault].
  - intros inp f e Hup Hparse.
    assert (E : result (load inp) = Raise e).
    { unfold load, st_file_uploader.
      simpl. rewrite Hup. simpl. now rewrite Hparse. }
    split; [exact E|now apply Hfault].
Qed.

Lemma missing_default_file_witness :
  let inp := mkInputs (fun _ => None)
               (fun _ => Raise EmptyDataError)
               None
               (String.eqb "Use default processed CSV")
               (fun _ _ => Ok None) in
  trace (app inp)
  = trace header
    ++ [StFileUploader "Upload your cleaned reviews CSV";
        StButton "Use default processed CSV";
        StError "Default CSV not found at data/processed/noom_google_clean.csv. Please upload a file."]
  /\ result (app inp) = Ok tt.
Proof.
  intros inp.
  destruct (proj1 missing_default_file inp) as [E1 E2]; try reflexivity.
  rewrite E2, E1. split; reflexivity.
Defined.

(** C10. The warning branch of [plot_confidence_histogram] is never
    taken: no run of the script emits its warning. On a table with a row
    the function renders the 20-bin histogram, and the call site (it
    follows the subheader of the histogram) is reached only when the
    analyser returned a table with a row. *)
Theorem histogram_warning_unreachable :
  (forall inp, ~ In (StWarning histogram_warning) (trace (app inp)))
  /\ (forall r t,
        plot_confidence_histogram (Some (r :: t))
        = ([StPyplot (Histogram (map confidence (r :: t)) 20)], Ok tt))
  /\ (forall inp df,
        In (StSubheader "Model Confidence Distribution")
           (trace (analysis inp df)) ->
        exists d r t,
          df = Some d
          /\ analyze_sentiment inp d "cleaned_content" = Ok (Some (r :: t))).
Proof.
  split; [|split].
  - intros inp H.
    assert (A : Forall (fun e => e <> StWarning histogram_warning)
                  (trace (app inp))).
    { unfold app. apply all_bind; [|intros _ _; apply all_bind].
      - apply header_all. intros e He. simpl in He.
        repeat destruct He as [He | He]; try (subst; discriminate).
        contradiction.
      - apply load_all; intros; discriminate.
      - intros df _. unfold analysis, render, st_button.
        all_events ltac:(try discriminate).
        match goal with
        | E : negb (empty ?t) = true |- _ => destruct t; [discriminate E|]
        end.
        apply all_emit. discriminate. }
    rewrite Forall_forall in A. now apply (A _ H).
  - reflexivity.
  - intros inp df. unfold analysis, st_button.
    destruct df as [d|]; [|intros []].
    simpl.
    destruct (clicked inp "Run Feature Specific Analysis"); simpl;
      [|intros [H|[]]; discriminate H].
    destruct (analyze_sentiment inp d "cleaned_content")
      as [[[|r t]|]|e] eqn:E; simpl.
    + intros [H|[H|[H|[]]]]; discriminate H.
    + intros _. exists d, r, t. auto.
    + intros [H|[H|[H|[]]]]; discriminate H.
    + intros [H|[H|[]]]; discriminate H.
Qed.

(* ===================================================================== *)
(** ** Further properties of the summary computation *)
(* ===================================================================== *)

(** *** The summary reads the rows as a bag of (bucket, label) pairs *)

Lemma count_rows_keys (t : result_table) (b l : string) :
  count_rows t b l = count_occ row_key_dec (map row_key t) (b, l).
Proof.
  unfold count_rows. induction t as [|r t IH]; [reflexivity|].
  cbn [map filter].
  destruct (row_key_dec (row_key r) (b, l)) as [E|E].
  - rewrite (count_occ_cons_eq _ _ E).
    unfold row_key in E. injection E as Eb El.
    apply String.eqb_eq in Eb, El. rewrite Eb, El. simpl.
    f_equal. exact IH.
  - rewrite (count_occ_cons_neq _ _ E).
    destruct (String.eqb (bucket r) b) eqn:Eb, (String.eqb (label r) l) eqn:El;
      cbn [andb]; try exact IH.
    apply String.eqb_eq in Eb, El. subst. now elim E.
Qed.

Lemma count_rows_perm (t t' : result_table) :
  Permutation (map row_key t) (map row_key t') ->
  forall b l, count_rows t b l = count_rows t' b l.
Proof.
  intros H b l. rewrite !count_rows_keys.
  now apply (Permutation_count_occ row_key_dec).
Qed.

Lemma In_bucket_count (t : result_table) (b : string) :
  In b (map bucket t) <-> exists l, 0 < count_rows t b l.
Proof.
  split.
  - intros H. apply in_map_iff in H. destruct H as [r [Hb Hr]].
    exists (label r). apply count_rows_pos. eauto.
  - intros [l H]. apply count_rows_pos in H. destruct H as [r [Hr [Hb _]]].
    apply in_map_iff. eauto.
Qed.

Lemma In_label_count (t : result_table) (l : string) :
  In l (map label t) <-> exists b, 0 < count_rows t b l.
Proof.
  split.
  - intros H. apply in_map_iff in H. destruct H as [r [Hl Hr]].
    exists (bucket r). apply count_rows_pos. eauto.
  - intros [b H]. apply count_rows_pos in H. destruct H as [r [Hr [_ Hl]]].
    apply in_map_iff. eauto.
Qed.

(** X1. The summary does not depend on the order of the result rows nor
    on their confidence: two tables with the same (bucket, label) pairs,
    in any order, have pivots and summaries with the same rows, the same
    columns and the same value in every cell. (The order of the rows and
    of the columns is not compared.) *)
Theorem summary_of_permuted_rows (t t' : result_table) :
  Permutation (map row_key t) (map row_key t') ->
  (forall b, In b (index (sentiment_summary_pivot t))
             <-> In b (index (sentiment_summary_pivot t')))
  /\ (forall c, In c (columns (sentiment_summary_pivot t))
                <-> In c (columns (sentiment_summary_pivot t')))
  /\ (forall b c, cell (sentiment_summary_pivot t) b c
                  = cell (sentiment_summary_pivot t') b c)
  /\ exists df df',
       sentiment_summary t = Ok df
       /\ sentiment_summary t' = Ok df'
       /\ (forall b, In b (index df) <-> In b (index df'))
       /\ (forall c, In c (columns df) <-> In c (columns df'))
       /\ (forall b c, cell df b c = cell df' b c).
Proof.
  intros H. pose proof (count_rows_perm t t' H) as C.
  assert (Hb : forall b, In b (map bucket t) <-> In b (map bucket t')).
  { intros b. rewrite !In_bucket_count.
    split; intros [l Hl]; exists l; [rewrite <- C|rewrite C]; exact Hl. }
  assert (Hl : forall l, In l (map label t) <-> In l (map label t')).
  { intros l. rewrite !In_label_count.
    split; intros [b Hx]; exists b; [rewrite <- C|rewrite C]; exact Hx. }
  split; [|split; [|split]].
  - intros b. now rewrite !pivot_index.
  - intros c. now rewrite !pivot_columns.
  - intros b c. now rewrite !pivot_cell, C.
  - destruct (sentiment_summary_spec t)
      as [df [E [Hi [Hc [Ho [Ht [Hp [Hn Hs]]]]]]]].
    destruct (sentiment_summary_spec t')
      as [df' [E' [Hi' [Hc' [Ho' [Ht' [Hp' [Hn' Hs']]]]]]]].
    exists df, df'. split; [exact E|]. split; [exact E'|].
    split; [|split].
    + intros b.
      now rewrite (summary_index_In t df b Hi), (summary_index_In t' df' b Hi').
    + intros c. now rewrite Hc, Hc', Hl.
    + intros b c.
      destruct (in_dec string_dec c derived_columns) as [Hd|Hd].
      * unfold derived_columns in Hd. simpl in Hd.
        destruct Hd as [<- | [<- | [<- | [<- | []]]]];
          rewrite ?Ht, ?Hp, ?Hn, ?Hs, ?Ht', ?Hp', ?Hn', ?Hs', !C;
          reflexivity.
      * now rewrite (Ho b c Hd), (Ho' b c Hd), C.
Qed.

Lemma summary_of_permuted_rows_witness :
  let t := [mkRow "price" "POSITIVE" (9 # 10);
            mkRow "ui" "NEGATIVE" (8 # 10);
            mkRow "price" "NEGATIVE" (7 # 10)] in
  let t' := [mkRow "ui" "NEGATIVE" (1 # 2);
             mkRow "price" "NEGATIVE" (3 # 4);
             mkRow "price" "POSITIVE" 1] in
  exists df df',
    sentiment_summary t = Ok df
    /\ sentiment_summary t' = Ok df'
    /\ (forall b, In b (index df) <-> In b (index df'))
    /\ (forall c, In c (columns df) <-> In c (columns df'))
    /\ (forall b c, cell df b c = cell df' b c).
Proof.
  intros t t'. apply (summary_of_permuted_rows t t').
  unfold t, t', row_key. simpl.
  apply perm_trans with [("ui", "NEGATIVE"); ("price", "POSITIVE");
                         ("price", "NEGATIVE")].
  - apply perm_swap.
  - apply perm_skip, perm_swap.
Defined.

(** *** The rates and the sign of the score *)

Local Open Scope Q_scope.

Lemma Qdiv_eq (x y c : Q) : ~ y == 0 -> (x / y == c <-> x == c * y).
Proof.
  intros Hy. split; intros H.
  - rewrite <- H. field. exact Hy.
  - rewrite H. field. exact Hy.
Qed.

Lemma Qdiv_nonneg (x y : Q) : 0 < y -> (0 <= x / y <-> 0 <= x).
Proof.
  intros Hy. split; intros H.
  - setoid_replace x with (x / y * y).
    + apply Qmult_le_0_compat; [exact H|now apply Qlt_le_weak].
    + field. intros E. rewrite E in Hy. now apply Qlt_irrefl in Hy.
  - apply Qle_shift_div_l; [exact Hy|]. now rewrite Qmult_0_l.
Qed.

Lemma Qdiv_le_1 (x y : Q) : 0 < y -> (x / y <= 1 <-> x <= y).
Proof.
  intros Hy. split; intros H.
  - setoid_replace x with (x / y * y).
    + setoid_replace y with (1 * y) at 3 by ring.
      apply Qmult_le_compat_r; [exact H|now apply Qlt_le_weak].
    + field. intros E. rewrite E in Hy. now apply Qlt_irrefl in Hy.
  - apply Qle_shift_div_r; [exact Hy|]. now rewrite Qmult_1_l.
Qed.

Lemma score_value (p n : nat) :
  (0 < p + n)%nat ->
  let a := inject_Z (Z.of_nat p) in
  let b := inject_Z (Z.of_nat n) in
  a / (a + b) + - (b / (a + b)) == (a - b) / (a + b).
Proof. intros H a b. field. now apply total_nonzero. Qed.

Close Scope Q_scope.

(** X3. In a bucket with a POSITIVE or a NEGATIVE row both rates are
    numbers within [0, 1]. *)
Theorem rates_within_unit_interval (t : result_table) (b : string) :
  let P := count_rows t b "POSITIVE" in
  let N := count_rows t b "NEGATIVE" in
  0 < P + N ->
  exists df,
    sentiment_summary t = Ok df
    /\ within 0 1 (cell df b "positive_rate")
    /\ within 0 1 (cell df b "negative_rate").
Proof.
  intros P N Hpos.
  destruct (sentiment_summary_spec t)
    as [df [E [_ [_ [_ [_ [Hp [Hn _]]]]]]]].
  exists df. split; [exact E|].
  rewrite Hp, Hn, !rate_defined by exact Hpos. fold P N.
  pose proof (total_pos P N Hpos) as Ht.
  pose proof (count_nonneg P) as HP. pose proof (count_nonneg N) as HN.
  repeat split.
  - now apply Qdiv_nonneg.
  - apply Qdiv_le_1; [exact Ht|].
    rewrite <- (Qplus_0_r (inject_Z (Z.of_nat P))) at 1.
    apply Qplus_le_compat; [apply Qle_refl|exact HN].
  - now apply Qdiv_nonneg.
  - apply Qdiv_le_1; [exact Ht|].
    rewrite <- (Qplus_0_l (inject_Z (Z.of_nat N))) at 1.
    apply Qplus_le_compat; [exact HP|apply Qle_refl].
Qed.

Lemma rates_within_unit_interval_witness :
  exists df,
    sentiment_summary [mkRow "price" "NEGATIVE" (9 # 10);
                       mkRow "price" "NEUTRAL" (6 # 10);
                       mkRow "price" "NEGATIVE" (6 # 10);
                       mkRow "price" "POSITIVE" (6 # 10)] = Ok df
    /\ within 0 1 (cell df "price" "positive_rate")
    /\ within 0 1 (cell df "price" "negative_rate").
Proof.
  apply (rates_within_unit_interval
           [mkRow "price" "NEGATIVE" (9 # 10);
            mkRow "price" "NEUTRAL" (6 # 10);
            mkRow "price" "NEGATIVE" (6 # 10);
            mkRow "price" "POSITIVE" (6 # 10)] "price").
  vm_compute. lia.
Defined.

(** X4. In a bucket with a POSITIVE or a NEGATIVE row the score is 1
    exactly when the bucket has no NEGATIVE row, -1 exactly when it has no
    POSITIVE row, and 0 exactly when it has as many of the one as of the
    other. *)
Theorem score_extremes (t : result_table) (b : string) :
  let P := count_rows t b "POSITIVE" in
  let N := count_rows t b "NEGATIVE" in
  0 < P + N ->
  exists df,
    sentiment_summary t = Ok df
    /\ ((cell df b "sentiment_score" == Fin 1)%num <-> N = 0)
    /\ ((cell df b "sentiment_score" == Fin (-1))%num <-> P = 0)
    /\ ((cell df b "sentiment_score" == Fin 0)%num <-> P = N).
Proof.
  intros P N Hpos.
  destruct (sentiment_summary_spec t)
    as [df [E [_ [_ [_ [_ [_ [_ Hs]]]]]]]].
  exists df. split; [exact E|].
  rewrite Hs, !rate_defined by exact Hpos. fold P N.
  unfold sub, neg, add, eqv. rewrite (score_value P N Hpos).
  pose proof (total_nonzero P N Hpos) as Hnz.
  rewrite !(Qdiv_eq _ _ _ Hnz).
  unfold Qeq, Qminus, Qplus, Qmult, Qopp, inject_Z.
  cbn [Qnum Qden Pos.mul]. repeat split; lia.
Qed.

Lemma score_extremes_witness :
  exists df,
    sentiment_summary [mkRow "price" "POSITIVE" (9 # 10);
                       mkRow "price" "NEUTRAL" (6 # 10)] = Ok df
    /\ ((cell df "price" "sentiment_score" == Fin 1)%num <-> 0 = 0)
    /\ ((cell df "price" "sentiment_score" == Fin (-1))%num <-> 1 = 0)
    /\ ((cell df "price" "sentiment_score" == Fin 0)%num <-> 1 = 0).
Proof.
  apply (score_extremes
           [mkRow "price" "POSITIVE" (9 # 10);
            mkRow "price" "NEUTRAL" (6 # 10)] "price").
  vm_compute. lia.
Defined.

(** X5. The bar of a bucket is green exactly when the bucket has a
    POSITIVE or a NEGATIVE row and at least as many POSITIVE as NEGATIVE
    rows; it is red when it has more NEGATIVE rows and also when it has
    neither (the comparison of a NaN score with 0 is false). *)
Theorem bar_colors (t : result_table) (b : string) :
  let P := count_rows t b "POSITIVE" in
  let N := count_rows t b "NEGATIVE" in
  exists df,
    sentiment_summary t = Ok df
    /\ (bar_color (cell df b "sentiment_score") = "#4CAF50"
        <-> 0 < P + N /\ N <= P)
    /\ (bar_color (cell df b "sentiment_score") = "#F44336"
        <-> P + N = 0 \/ P < N).
Proof.
  intros P N.
  destruct (sentiment_summary_spec t)
    as [df [E [_ [_ [_ [_ [_ [_ Hs]]]]]]]].
  exists df. split; [exact E|]. rewrite Hs. fold P N.
  destruct (Nat.eq_dec (P + N) 0) as [Hz|Hz].
  - assert (P = 0) as -> by lia. assert (N = 0) as -> by lia.
    simpl. unfold bar_color. simpl. split; split; intros H;
      try discriminate; try lia. auto.
  - assert (Hpos : 0 < P + N) by lia.
    rewrite !rate_defined by exact Hpos.
    unfold bar_color, sub, neg, add, Num.leb, of_nat.
    assert (G : Qle_bool (inject_Z (Z.of_nat 0))
                  (inject_Z (Z.of_nat P)
                   / (inject_Z (Z.of_nat P) + inject_Z (Z.of_nat N))
                   + - (inject_Z (Z.of_nat N)
                        / (inject_Z (Z.of_nat P) + inject_Z (Z.of_nat N))))%Q
                = true <-> N <= P).
    { rewrite Qle_bool_iff, (score_value P N Hpos).
      change (inject_Z (Z.of_nat 0)) with 0%Q.
      rewrite (Qdiv_nonneg _ _ (total_pos P N Hpos)).
      unfold Qle, Qminus, Qplus, Qopp, inject_Z. simpl. lia. }
    destruct (Qle_bool _ _); split; split; intros H;
      try discriminate; try reflexivity; lia.
Qed.

(** *** Every row is counted once *)

Lemma list_sum_map_add {A} (f g : A -> nat) (l : list A) :
  list_sum (map (fun x => f x + g x) l)
  = list_sum (map f l) + list_sum (map g l).
Proof. induction l as [|a l IH]; simpl; [reflexivity|]. rewrite IH. lia. Qed.

Lemma list_sum_indicator (x : string) (l : list string) :
  NoDup l ->
  list_sum (map (fun y => if string_dec x y then 1 else 0) l)
  = if in_dec string_dec x l then 1 else 0.
Proof.
  induction 1 as [|a l Ha Hl IH]; simpl; [reflexivity|].
  rewrite IH. destruct (string_dec a x) as [->|Hax].
  - destruct (string_dec x x) as [_|C]; [|now elim C].
    destruct (in_dec string_dec x l) as [Hx|_]; [contradiction|reflexivity].
  - destruct (string_dec x a) as [->|_]; [now elim Hax|].
    now destruct (in_dec string_dec x l).
Qed.

Lemma list_sum_count_occ (xs ls : list string) :
  NoDup ls -> (forall x, In x xs -> In x ls) ->
  list_sum (map (count_occ string_dec xs) ls) = List.length xs.
Proof.
  intros Hls. induction xs as [|x xs IH]; intros Hin.
  - clear Hls Hin. induction ls as [|a ls IHl]; simpl; [reflexivity|].
    exact IHl.
  - rewrite (map_ext _ (fun y => (if string_dec x y then 1 else 0)
                                 + count_occ string_dec xs y)).
    2:{ intros y. simpl. now destruct (string_dec x y). }
    rewrite list_sum_map_add, list_sum_indicator, IH by auto with datatypes.
    destruct (in_dec string_dec x ls) as [_|C]; [reflexivity|].
    elim C. apply Hin. now left.
Qed.

Lemma sum_of_counts (f : string -> nat) (ls : list string) :
  exists q,
    fold_right Num.add (of_nat 0) (map (fun l => of_nat (f l)) ls) = Fin q
    /\ (q == inject_Z (Z.of_nat (list_sum (map f ls))))%Q.
Proof.
  induction ls as [|a ls [q [E Hq]]]; simpl.
  - exists (inject_Z (Z.of_nat 0)). split; reflexivity.
  - rewrite E. eexists. split; [reflexivity|].
    rewrite Hq, Nat2Z.inj_add, inject_Z_plus. reflexivity.
Qed.

Lemma group_size_split (t : result_table) (b : string) :
  List.length (group t b)
  = count_rows t b "POSITIVE" + count_rows t b "NEGATIVE"
    + List.length (filter (fun r => negb (String.eqb (label r) "POSITIVE"
                                         || String.eqb (label r) "NEGATIVE"))
                          (group t b)).
Proof.
  unfold group, count_rows. induction t as [|r t IH]; simpl; [reflexivity|].
  destruct (String.eqb (bucket r) b); simpl; [|exact IH].
  destruct (String.eqb (label r) "POSITIVE") eqn:EP.
  - apply String.eqb_eq in EP. rewrite EP. simpl. rewrite IH. lia.
  - destruct (String.eqb (label r) "NEGATIVE"); simpl; rewrite IH; lia.
Qed.

(** X6. Every row of the table is counted in exactly one cell of the
    pivot: the cells of a bucket's row add up to the number of rows the
    table has for that bucket. *)
Theorem pivot_row_sum (t : result_table) (b : string) :
  let pivot := sentiment_summary_pivot t in
  (fold_right Num.add (of_nat 0) (map (cell pivot b) (columns pivot))
   == of_nat (List.length (group t b)))%num.
Proof.
  intros pivot. unfold pivot.
  rewrite (map_ext _ (fun l => of_nat (count_rows t b l)))
    by (intros l; apply pivot_cell).
  destruct (sum_of_counts (count_rows t b)
              (columns (sentiment_summary_pivot t))) as [q [E Hq]].
  rewrite E. unfold eqv, of_nat. rewrite Hq.
  rewrite (map_ext _ (count_occ string_dec (map label (group t b))))
    by (intros l; now rewrite count_occ_group).
  rewrite list_sum_count_occ.
  - now rewrite length_map.
  - apply unique_sorted_NoDup.
  - intros l Hl. apply pivot_columns.
    apply group_label_In in Hl. destruct Hl as [r [Hr [_ Hl]]].
    apply in_map_iff. eauto.
Qed.

(** X7. [total] counts the POSITIVE and NEGATIVE rows only: it is at most
    the number of rows of the bucket, and equal to it exactly when every
    row of the bucket carries one of these two labels. *)
Theorem total_and_bucket_size (t : result_table) (b : string) :
  exists df n,
    sentiment_summary t = Ok df
    /\ (cell df b "total" == of_nat n)%num
    /\ n <= List.length (group t b)
    /\ (n = List.length (group t b)
        <-> Forall (fun r => label r = "POSITIVE" \/ label r = "NEGATIVE")
                   (group t b)).
Proof.
  destruct (sentiment_summary_spec t) as [df [E [_ [_ [_ [Ht _]]]]]].
  exists df, (count_rows t b "POSITIVE" + count_rows t b "NEGATIVE").
  split; [exact E|]. split.
  { rewrite Ht. unfold of_nat, add, eqv.
    now rewrite Nat2Z.inj_add, inject_Z_plus. }
  pose proof (group_size_split t b) as S.
  split; [lia|]. split.
  - intros H.
    assert (Z : filter (fun r => negb (String.eqb (label r) "POSITIVE"
                                       || String.eqb (label r) "NEGATIVE"))
                  (group t b) = []).
    { apply length_zero_iff_nil. lia. }
    apply Forall_forall. intros r Hr.
    destruct (String.eqb (label r) "POSITIVE") eqn:EP;
      [left; now apply String.eqb_eq|].
    destruct (String.eqb (label r) "NEGATIVE") eqn:EN;
      [right; now apply String.eqb_eq|].
    exfalso. assert (In r []) as []. rewrite <- Z.
    apply filter_In. split; [exact Hr|]. now rewrite EP, EN.
  - intros H. rewrite filter_none in S; [simpl in S; lia|].
    intros r Hr. rewrite Forall_forall in H.
    destruct (H r Hr) as [-> | ->]; reflexivity.
Qed.

(** *** The columns of the summary *)

Lemma NoDup_setitem (df : DataFrame) (c : string) (s : Series) :
  NoDup (columns df) -> NoDup (columns (setitem df c s)).
Proof.
  intros H. unfold setitem. cbn [columns].
  destruct (has_column df c) eqn:E; [exact H|].
  apply Permutation_NoDup with (l := c :: columns df).
  - apply Permutation_cons_append.
  - constructor; [|exact H]. intros Hc. apply has_column_In in Hc. congruence.
Qed.

Lemma columns_setitem_new (df : DataFrame) (c : string) (s : Series) :
  has_column df c = false -> columns (setitem df c s) = columns df ++ [c].
Proof. intros H. unfold setitem. cbn [columns]. now rewrite H. Qed.

Lemma sentiment_scores_columns (df df' : DataFrame) :
  sentiment_scores df = Ok df' ->
  NoDup (columns df) ->
  NoDup (columns df')
  /\ ((forall c, In c derived_columns -> has_column df c = false) ->
      columns df' = columns df ++ derived_columns).
Proof.
  intros H Hnd. unfold sentiment_scores, getitem in H.
  repeat (rewrite !has_column_setitem in H;
          cbn [String.eqb Ascii.eqb Bool.eqb orb andb obind] in H).
  unfold sort_values in H.
  repeat (rewrite !has_column_setitem in H;
          cbn [String.eqb Ascii.eqb Bool.eqb orb andb obind] in H).
  match type of H with
  | Ok {| index := _; columns := columns ?S; cell := _ |} = _ =>
      remember S as s4 eqn:Es4
  end.
  injection H as <-. cbn [columns]. subst s4. split.
  - do 4 apply NoDup_setitem. exact Hnd.
  - intros Hnew. unfold derived_columns in Hnew. simpl In in Hnew.
    rewrite !columns_setitem_new.
    + now rewrite <- !app_assoc.
    + apply Hnew. tauto.
    + rewrite has_column_setitem. simpl. apply Hnew. tauto.
    + rewrite !has_column_setitem. simpl. apply Hnew. tauto.
    + rewrite !has_column_setitem. simpl. apply Hnew. tauto.
Qed.

(** X8. The summary has no duplicate column: a derived column is added
    after the label columns, in the order total, positive_rate,
    negative_rate, sentiment_score, unless a label of the table already
    has that name, in which case that label's column is the one that
    receives the derived values. The other label columns keep their
    counts. *)
Theorem summary_columns (t : result_table) :
  exists df,
    sentiment_summary t = Ok df
    /\ NoDup (columns df)
    /\ ((forall c, In c derived_columns -> ~ In c (map label t)) ->
        columns df = columns (sentiment_summary_pivot t) ++ derived_columns)
    /\ (forall c, In c derived_columns -> In c (map label t) ->
        columns df <> columns (sentiment_summary_pivot t) ++ derived_columns)
    /\ (forall b c, ~ In c derived_columns ->
        cell df b c = cell (sentiment_summary_pivot t) b c).
Proof.
  destruct (sentiment_summary_spec t) as [df [E [_ [_ [Ho _]]]]].
  exists df. split; [exact E|].
  destruct (sentiment_scores_columns _ _ E (unique_sorted_NoDup _))
    as [Hnd Hcols].
  split; [exact Hnd|]. split; [|split].
  - intros H. apply Hcols. intros c Hc.
    destruct (has_column (sentiment_summary_pivot t) c) eqn:Ec;
      [|reflexivity].
    apply has_column_In, pivot_columns in Ec. now elim (H c Hc).
  - intros c Hd Hl Heq. rewrite Heq in Hnd.
    apply pivot_columns in Hl.
    apply in_split in Hl. destruct Hl as [l1 [l2 Hl]]. rewrite Hl in Hnd.
    rewrite <- app_assoc in Hnd. apply NoDup_remove_2 in Hnd.
    apply Hnd. rewrite !in_app_iff. auto.
  - intros b c Hc. rewrite (Ho b c Hc). symmetry. apply pivot_cell.
Qed.

(* ===================================================================== *)
(** ** Further properties of runs of the script *)
(* ===================================================================== *)

Lemma getitem_score (t : result_table) (df : DataFrame) :
  sentiment_summary t = Ok df ->
  getitem df "sentiment_score" = Ok (fun b => cell df b "sentiment_score").
Proof.
  intros E. destruct (sentiment_summary_spec t) as [df' [E' [_ [Hc _]]]].
  rewrite E in E'. injection E' as <-.
  unfold getitem.
  assert (H : has_column df "sentiment_score" = true).
  { apply has_column_In, Hc. right. simpl. tauto. }
  now rewrite H.
Qed.

(** The branch taken on a result with a row: the seven calls, in order,
    and a normal end. *)
Lemma render_value (r : row) (t : result_table) :
  exists df,
    sentiment_summary (r :: t) = Ok df
    /\ render (r :: t)
       = ([StSuccess "Sentiment analysis complete!";
           StSubheader "Model Confidence Distribution";
           StPyplot (Histogram (map confidence (r :: t)) 20);
           StSubheader "Feature-Level Sentiment Summary";
           StDataframe (sentiment_summary_pivot (r :: t));
           StSubheader "Feature Sentiment Scores";
           StPyplot (BarH (map (fun b => (b, cell df b "sentiment_score"))
                               (index df))
                          (map (fun b => bar_color (cell df b "sentiment_score"))
                               (index df)))],
          Ok tt).
Proof.
  destruct (sentiment_summary_spec (r :: t)) as [df [E _]].
  exists df. split; [exact E|].
  pose proof (getitem_score _ _ E) as G.
  unfold sentiment_summary in E. unfold render. cbv zeta.
  rewrite E.
  cbn [bind lift emit plot_confidence_histogram empty List.app].
  rewrite G. reflexivity.
Qed.

(** X9. An uploaded file takes precedence: the default button is not
    shown, and neither the file system nor any click changes what is
    loaded. *)
Theorem upload_takes_precedence (inp inp' : Inputs) (f : string) :
  uploaded_file inp = Some f ->
  uploaded_file inp' = Some f ->
  parse_csv inp f = parse_csv inp' f ->
  load inp = load inp'
  /\ ~ In (StButton "Use default processed CSV") (trace (load inp)).
Proof.
  intros H H' Hp. unfold load, st_file_uploader. simpl.
  rewrite H, H', <- Hp. split; [reflexivity|].
  simpl. destruct (parse_csv inp f) as [d|e]; simpl;
    intuition discriminate.
Qed.

Lemma upload_takes_precedence_witness :
  let reviews := mkReviews ["cleaned_content"] [["love it"]] in
  let parse := fun _ : string => Ok reviews in
  let inp := mkInputs (fun _ => None) parse (Some "cleaned_content,love it")
               (fun _ => false) (fun _ _ => Ok None) in
  let inp' := mkInputs (fun _ => Some "cleaned_content") parse
                (Some "cleaned_content,love it")
                (String.eqb "Use default processed CSV") (fun _ _ => Ok None) in
  load inp = load inp'
  /\ ~ In (StButton "Use default processed CSV") (trace (load inp)).
Proof.
  intros reviews parse inp inp'.
  apply (upload_takes_precedence inp inp' "cleaned_content,love it");
    reflexivity.
Defined.

(** X10. A reviews table is loaded in exactly two ways: an uploaded file
    that parses, or, with nothing uploaded, the default button clicked
    and a file at the default path that parses. *)
Theorem table_loaded_iff (inp : Inputs) (d : ReviewsTable) :
  result (load inp) = Ok (Some d)
  <-> (exists f, uploaded_file inp = Some f /\ parse_csv inp f = Ok d)
      \/ (uploaded_file inp = None
          /\ clicked inp "Use default processed CSV" = true
          /\ exists c, files inp DEFAULT_CSV = Some c /\ parse_csv inp c = Ok d).
Proof.
  unfold load, st_file_uploader, st_button, pd_read_csv. simpl.
  destruct (uploaded_file inp) as [f|]; simpl.
  - destruct (parse_csv inp f) as [d'|e] eqn:P; simpl; split.
    + intros H. injection H as ->. left. eauto.
    + intros [[f' [Hf H]]|[C _]]; [|discriminate C].
      injection Hf as <-. rewrite P in H. now injection H as ->.
    + discriminate.
    + intros [[f' [Hf H]]|[C _]]; [|discriminate C].
      injection Hf as <-. rewrite P in H. discriminate H.
  - destruct (clicked inp "Use default processed CSV"); simpl.
    + destruct (files inp DEFAULT_CSV) as [c|] eqn:F; simpl.
      * destruct (parse_csv inp c) as [d'|e] eqn:P; simpl; split.
        -- intros H. injection H as ->. right. eauto.
        -- intros [[f' [C _]]|[_ [_ [c' [Hc H]]]]]; [discriminate C|].
           injection Hc as <-. rewrite P in H. now injection H as ->.
        -- destruct e; simpl; discriminate.
        -- intros [[f' [C _]]|[_ [_ [c' [Hc H]]]]]; [discriminate C|].
           injection Hc as <-. rewrite P in H. discriminate H.
      * split; [discriminate|].
        intros [[f' [C _]]|[_ [_ [c' [Hc _]]]]]; discriminate.
    + split; [discriminate|].
      intros [[f' [C _]]|[_ [C _]]]; discriminate.
Qed.

Lemma app_value (inp : Inputs) :
  app inp
  = (trace header ++ trace (load inp)
     ++ match result (load inp) with
        | Ok df => trace (analysis inp df)
        | Raise _ => []
        end,
     match result (load inp) with
     | Ok df => result (analysis inp df)
     | Raise e => Raise e
     end).
Proof.
  rewrite (surjective_pairing (app inp)).
  change (fst (app inp)) with (trace (app inp)).
  change (snd (app inp)) with (result (app inp)).
  unfold app. rewrite !trace_bind, !result_bind. reflexivity.
Qed.

(** X11. The button that runs the analysis is shown exactly in the runs
    in which a reviews table was loaded. *)
Theorem run_button_iff_loaded (inp : Inputs) :
  In (StButton "Run Feature Specific Analysis") (trace (app inp))
  <-> exists d, result (load inp) = Ok (Some d).
Proof.
  rewrite app_value. cbn [trace fst]. rewrite !in_app_iff.
  assert (Hh : ~ In (StButton "Run Feature Specific Analysis") (trace header)).
  { simpl. intuition discriminate. }
  assert (Hl : ~ In (StButton "Run Feature Specific Analysis")
                 (trace (load inp))).
  { unfold load, st_file_uploader, st_button, pd_read_csv. simpl.
    destruct (uploaded_file inp) as [f|]; simpl;
      [destruct (parse_csv inp f); simpl; intuition discriminate|].
    destruct (clicked inp "Use default processed CSV"); simpl;
      [|intuition discriminate].
    destruct (files inp DEFAULT_CSV) as [c|]; simpl;
      [destruct (parse_csv inp c) as [?|e]; simpl; [|destruct e; simpl]|];
      intuition discriminate. }
  destruct (result (load inp)) as [[d|]|e].
  - split; [eauto|]. intros _. right. right.
    unfold analysis, st_button. rewrite trace_bind. left. reflexivity.
  - split; [|intros [d H]; discriminate H].
    intros [H|[H|H]]; [now elim Hh|now elim Hl|now simpl in H].
  - split; [|intros [d H]; discriminate H].
    intros [H|[H|H]]; [now elim Hh|now elim Hl|now simpl in H].
Qed.

(** X12. With no file uploaded, a run in which at most one button is
    reported clicked never reaches the analyser: if the click is on the
    run button the default table is not loaded in that run, and if it is
    on the default button the run button is not clicked. The run is the
    same whatever the analyser would return, and shows no spinner. *)
Theorem default_table_never_analysed (inp inp' : Inputs) :
  uploaded_file inp = None ->
  (forall l l', clicked inp l = true -> clicked inp l' = true -> l = l') ->
  files inp' = files inp ->
  parse_csv inp' = parse_csv inp ->
  uploaded_file inp' = uploaded_file inp ->
  clicked inp' = clicked inp ->
  app inp' = app inp
  /\ forall s, ~ In (StSpinner s) (trace (app inp)).
Proof.
  intros Hup Hone Hf Hp Hu Hc.
  assert (Hload : load inp' = load inp).
  { unfold load, st_file_uploader, st_button, pd_read_csv.
    now rewrite Hf, Hp, Hu, Hc. }
  assert (Hrun : forall d, result (load inp) = Ok (Some d) ->
                 clicked inp "Run Feature Specific Analysis" = false).
  { intros d H. apply table_loaded_iff in H.
    destruct H as [[f [C _]]|[_ [Hd _]]]; [congruence|].
    destruct (clicked inp "Run Feature Specific Analysis") eqn:E;
      [|reflexivity].
    discriminate (Hone _ _ Hd E). }
  assert (Han : forall df, result (load inp) = Ok df ->
                analysis inp' df = analysis inp df
                /\ forall s, ~ In (StSpinner s) (trace (analysis inp df))).
  { intros [d|] H; [|split; [reflexivity|intros s []]].
    unfold analysis, st_button. rewrite Hc, (Hrun d H). simpl.
    split; [reflexivity|]. intros s [C|[]]. discriminate C. }
  rewrite !app_value, Hload. cbn [trace fst].
  destruct (result (load inp)) as [df|e] eqn:R.
  - destruct (Han df eq_refl) as [Ha Hs]. rewrite Ha. split; [reflexivity|].
    intros s. rewrite !in_app_iff. intros [H|[H|H]].
    + simpl in H. intuition discriminate.
    + pose proof (load_all (fun e => forall s, e <> StSpinner s) inp) as A.
      rewrite Forall_forall in A. revert H.
      intros H. refine (A _ _ _ _ _ _ H s eq_refl); intros; discriminate.
    + now apply (Hs s).
  - split; [reflexivity|].
    intros s. rewrite !in_app_iff. intros [H|[H|[]]].
    + simpl in H. intuition discriminate.
    + pose proof (load_all (fun e => forall s, e <> StSpinner s) inp) as A.
      rewrite Forall_forall in A.
      refine (A _ _ _ _ _ _ H s eq_refl); intros; discriminate.
Qed.

Lemma default_table_never_analysed_witness :
  let reviews := mkReviews ["cleaned_content"] [["love it"]] in
  let inp := mkInputs (fun _ => Some "cleaned_content,love it")
               (fun _ => Ok reviews) None
               (String.eqb "Run Feature Specific Analysis")
               (fun _ _ => Ok (Some [mkRow "price" "POSITIVE" 1])) in
  let inp' := mkInputs (fun _ => Some "cleaned_content,love it")
                (fun _ => Ok reviews) None
                (String.eqb "Run Feature Specific Analysis")
                (fun _ _ => Raise (RuntimeError "model missing")) in
  app inp' = app inp
  /\ forall s, ~ In (StSpinner s) (trace (app inp)).
Proof.
  intros reviews inp inp'.
  apply (default_table_never_analysed inp inp'); try reflexivity.
  intros l l' H H'. cbn [clicked inp] in H, H'.
  apply String.eqb_eq in H, H'. congruence.
Defined.

(** X13. An exception of the analyser is not handled: the run stops
    with it right after the spinner, and nothing of the result is
    rendered. *)
Theorem analyser_fault_propagates (inp : Inputs) (tr : list event)
    (d : ReviewsTable) (e : exn) :
  load inp = (tr, Ok (Some d)) ->
  clicked inp "Run Feature Specific Analysis" = true ->
  analyze_sentiment inp d "cleaned_content" = Raise e ->
  app inp
  = (trace header ++ tr
     ++ [StButton "Run Feature Specific Analysis";
         StSpinner "Running sentiment analysis... This may take a few minutes..."],
     Raise e).
Proof.
  intros Hload Hrun Hres. rewrite (app_unfold inp tr (Some d) Hload).
  unfold analysis, st_button. simpl. rewrite Hrun. simpl. now rewrite Hres.
Qed.

Lemma analyser_fault_propagates_witness :
  let reviews := mkReviews ["cleaned_content"] [["love it"]] in
  let inp := mkInputs (fun _ => None) (fun _ => Ok reviews)
               (Some "cleaned_content,love it")
               (String.eqb "Run Feature Specific Analysis")
               (fun _ _ => Raise (KeyError "cleaned_content")) in
  app inp
  = (trace header
     ++ [StFileUploader "Upload your cleaned reviews CSV";
         StWrite "Loaded 1 reviews from uploaded CSV."]
     ++ [StButton "Run Feature Specific Analysis";
         StSpinner "Running sentiment analysis... This may take a few minutes..."],
     Raise (KeyError "cleaned_content")).
Proof.
  intros reviews inp.
  apply (analyser_fault_propagates inp
           [StFileUploader "Upload your cleaned reviews CSV";
            StWrite "Loaded 1 reviews from uploaded CSV."] reviews);
    reflexivity.
Defined.

(** X14. When the analyser returns a table with a row, the run ends
    normally after exactly these calls, in this order: the success
    message, the 20-bin histogram of all confidences, the pivot table as
    it is before the derived columns are added, and the bar chart with one
    bar and one colour per bucket in the order of the sorted summary. *)
Theorem nonempty_result_renders (inp : Inputs) (tr : list event)
    (d : ReviewsTable) (r : row) (t : result_table) :
  load inp = (tr, Ok (Some d)) ->
  clicked inp "Run Feature Specific Analysis" = true ->
  analyze_sentiment inp d "cleaned_content" = Ok (Some (r :: t)) ->
  exists df,
    sentiment_summary (r :: t) = Ok df
    /\ app inp
       = (trace header ++ tr
          ++ [StButton "Run Feature Specific Analysis";
              StSpinner "Running sentiment analysis... This may take a few minutes...";
              StSuccess "Sentiment analysis complete!";
              StSubheader "Model Confidence Distribution";
              StPyplot (Histogram (map confidence (r :: t)) 20);
              StSubheader "Feature-Level Sentiment Summary";
              StDataframe (sentiment_summary_pivot (r :: t));
              StSubheader "Feature Sentiment Scores";
              StPyplot (BarH (map (fun b => (b, cell df b "sentiment_score"))
                                  (index df))
                             (map (fun b => bar_color (cell df b "sentiment_score"))
                                  (index df)))],
          Ok tt).
Proof.
  intros Hload Hrun Hres.
  destruct (render_value r t) as [df [E R]].
  exists df. split; [exact E|].
  rewrite (app_unfold inp tr (Some d) Hload).
  unfold analysis, st_button. simpl. rewrite Hrun. simpl. rewrite Hres.
  simpl negb. cbv iota. cbn [bind lift]. rewrite R. reflexivity.
Qed.

Lemma nonempty_result_renders_witness :
  let reviews := mkReviews ["cleaned_content"] [["love it"]] in
  let inp := mkInputs (fun _ => None) (fun _ => Ok reviews)
               (Some "cleaned_content,love it")
               (String.eqb "Run Feature Specific Analysis")
               (fun _ _ => Ok (Some [mkRow "app" "POSITIVE" (9 # 10)])) in
  exists df,
    sentiment_summary [mkRow "app" "POSITIVE" (9 # 10)] = Ok df
    /\ result (app inp) = Ok tt
    /\ List.length (filter is_rendering (trace (app inp))) = 3.
Proof.
  intros reviews inp.
  destruct (nonempty_result_renders inp
              [StFileUploader "Upload your cleaned reviews CSV";
               StWrite "Loaded 1 reviews from uploaded CSV."]
              reviews (mkRow "app" "POSITIVE" (9 # 10)) [])
    as [df [E A]]; try reflexivity.
  exists df. split; [exact E|]. rewrite A. split; reflexivity.
Defined.


(* ===================================================================== *)
(** ** Runs on an analyser result that is not validated *)
(* ===================================================================== *)

Lemma raw_app_value (inp : Inputs)
    (analyze : ReviewsTable -> string -> outcome (option ResultFrame)) :
  raw_app inp analyze
  = (trace header ++ trace (load inp)
     ++ match result (load inp) with
        | Ok df => trace (raw_analysis inp analyze df)
        | Raise _ => []
        end,
     match result (load inp) with
     | Ok df => result (raw_analysis inp analyze df)
     | Raise e => Raise e
     end).
Proof.
  rewrite (surjective_pairing (raw_app inp analyze)).
  change (fst (raw_app inp analyze)) with (trace (raw_app inp analyze)).
  change (snd (raw_app inp analyze)) with (result (raw_app inp analyze)).
  unfold raw_app. rewrite !trace_bind, !result_bind. reflexivity.
Qed.

Lemma rf_empty_false (f : ResultFrame) :
  rf_empty f = false -> exists r t, rf_rows f = r :: t.
Proof.
  unfold rf_empty. destruct (rf_rows f) as [|r t]; [discriminate|]. eauto.
Qed.

(** What the branch of a non-empty result does, by the columns the
    result has. *)
Lemma raw_render_value (f : ResultFrame) (r : row) (t : result_table) :
  rf_rows f = r :: t -> rf_empty f = false ->
  raw_render f
  = if rf_has f "confidence" then
      if rf_has f "bucket" then
        if rf_has f "label" then render (r :: t)
        else ([StSuccess "Sentiment analysis complete!";
               StSubheader "Model Confidence Distribution";
               StPyplot (Histogram (map confidence (r :: t)) 20);
               StSubheader "Feature-Level Sentiment Summary"],
              Raise (KeyError "Column not found: label"))
      else ([StSuccess "Sentiment analysis complete!";
             StSubheader "Model Confidence Distribution";
             StPyplot (Histogram (map confidence (r :: t)) 20);
             StSubheader "Feature-Level Sentiment Summary"],
            Raise (KeyError "bucket"))
    else ([StSuccess "Sentiment analysis complete!";
           StSubheader "Model Confidence Distribution"],
          Raise (KeyError "confidence")).
Proof.
  intros Hr He.
  unfold raw_render, raw_plot_confidence_histogram, rf_confidence,
    rf_groupby_label.
  rewrite He, Hr.
  destruct (rf_has f "confidence"), (rf_has f "bucket"), (rf_has f "label");
    try reflexivity.
  destruct (render_value r t) as [df [E R]]. rewrite R.
  pose proof (getitem_score _ _ E) as G. unfold sentiment_summary in E.
  cbv zeta. cbn [bind lift emit]. rewrite E.
  cbn [bind lift emit]. rewrite G. reflexivity.
Qed.

(** On a result that has the three columns the lookups play no part:
    the run is the run of the script as modelled on typed results. *)
Lemma raw_app_conforming (inp : Inputs)
    (analyze : ReviewsTable -> string -> outcome (option ResultFrame)) :
  (forall d,
     match analyze d "cleaned_content" with
     | Ok (Some f) =>
         rf_has f "confidence" = true /\ rf_has f "bucket" = true
         /\ rf_has f "label" = true
         /\ analyze_sentiment inp d "cleaned_content" = Ok (Some (rf_rows f))
     | Ok None => analyze_sentiment inp d "cleaned_content" = Ok None
     | Raise e => analyze_sentiment inp d "cleaned_content" = Raise e
     end) ->
  raw_app inp analyze = app inp.
Proof.
  intros H. rewrite raw_app_value, app_value.
  destruct (result (load inp)) as [[d|]|e]; try reflexivity.
  assert (E : raw_analysis inp analyze (Some d) = analysis inp (Some d));
    [|now rewrite E].
  unfold raw_analysis, analysis, st_button. simpl.
  destruct (clicked inp "Run Feature Specific Analysis"); [|reflexivity].
  simpl. specialize (H d).
  destruct (analyze d "cleaned_content") as [[f|]|e].
  - destruct H as [Hc [Hb [Hl ->]]]. simpl.
    destruct (rf_rows f) as [|r t] eqn:Hr.
    + unfold rf_empty. rewrite Hr. reflexivity.
    + assert (He : rf_empty f = false).
      { unfold rf_empty. rewrite Hr. unfold rf_has in Hc.
        destruct (rf_columns f); [discriminate Hc|reflexivity]. }
      rewrite He. simpl negb. cbv iota.
      rewrite (raw_render_value f r t Hr He), Hc, Hb, Hl. reflexivity.
  - now rewrite H.
  - now rewrite H.
Qed.

Lemma raw_analysis_cases (inp : Inputs)
    (analyze : ReviewsTable -> string -> outcome (option ResultFrame))
    (d : ReviewsTable) :
  (exists r t f,
     clicked inp "Run Feature Specific Analysis" = true
     /\ analyze d "cleaned_content" = Ok (Some f)
     /\ rf_rows f = r :: t /\ rf_empty f = false
     /\ raw_analysis inp analyze (Some d)
        = (StButton "Run Feature Specific Analysis"
           :: StSpinner "Running sentiment analysis... This may take a few minutes..."
           :: trace (raw_render f),
           result (raw_render f)))
  \/ (filter is_rendering (trace (raw_analysis inp analyze (Some d))) = []
      /\ forall e, result (raw_analysis inp analyze (Some d)) = Raise e ->
           clicked inp "Run Feature Specific Analysis" = true
           /\ analyze d "cleaned_content" = Raise e).
Proof.
  unfold raw_analysis, st_button. simpl.
  destruct (clicked inp "Run Feature Specific Analysis"); simpl;
    [|right; split; [reflexivity|discriminate]].
  destruct (analyze d "cleaned_content") as [[f|]|e] eqn:A; simpl.
  - destruct (rf_empty f) eqn:He; simpl.
    + right. split; [reflexivity|discriminate].
    + left. destruct (rf_empty_false f He) as [r [t Hr]].
      exists r, t, f. repeat split; auto. now destruct (raw_render f).
  - right. split; [reflexivity|discriminate].
  - right. split; [reflexivity|]. intros e' H. injection H as ->. auto.
Qed.


(** X16. An exception that ends a run comes from reading the uploaded
    file, from reading the default file (any exception but
    [FileNotFoundError]), from the analyser, or is the [KeyError] of the
    first of the columns confidence, bucket and label that a non-empty
    result of the analyser does not have. *)
Theorem fault_origins (inp : Inputs)
    (analyze : ReviewsTable -> string -> outcome (option ResultFrame))
    (e : exn) :
  result (raw_app inp analyze) = Raise e ->
  (exists f, uploaded_file inp = Some f /\ parse_csv inp f = Raise e)
  \/ (uploaded_file inp = None
      /\ clicked inp "Use default processed CSV" = true
      /\ pd_read_csv inp DEFAULT_CSV = Raise e
      /\ e <> FileNotFoundError)
  \/ (exists d,
        result (load inp) = Ok (Some d)
        /\ clicked inp "Run Feature Specific Analysis" = true
        /\ (analyze d "cleaned_content" = Raise e
            \/ exists f,
                 analyze d "cleaned_content" = Ok (Some f)
                 /\ rf_empty f = false
                 /\ ((rf_has f "confidence" = false
                      /\ e = KeyError "confidence")
                     \/ (rf_has f "confidence" = true
                         /\ rf_has f "bucket" = false
                         /\ e = KeyError "bucket")
                     \/ (rf_has f "confidence" = true
                         /\ rf_has f "bucket" = true
                         /\ rf_has f "label" = false
                         /\ e = KeyError "Column not found: label")))).
Proof.
  rewrite raw_app_value. cbn [result snd].
  destruct (result (load inp)) as [[d|]|e'] eqn:L.
  - intros H. right. right. exists d. split; [reflexivity|].
    destruct (raw_analysis_cases inp analyze d)
      as [[r [t [f [Hrun [A [Hr [He E]]]]]]]|[_ Z]].
    + split; [exact Hrun|]. right. exists f.
      split; [exact A|]. split; [exact He|].
      rewrite E in H. cbn [result snd] in H.
      rewrite (raw_render_value f r t Hr He) in H.
      destruct (rf_has f "confidence"); [|injection H as <-; auto].
      destruct (rf_has f "bucket");
        [|injection H as <-; right; left; auto].
      destruct (rf_has f "label");
        [|injection H as <-; right; right; auto].
      destruct (render_value r t) as [df [_ R]]. rewrite R in H.
      discriminate H.
    + destruct (Z e H) as [Hrun A]. auto.
  - discriminate.
  - intros H. injection H as ->. revert L.
    unfold load, st_file_uploader, st_button. simpl.
    destruct (uploaded_file inp) as [f|]; simpl.
    + destruct (parse_csv inp f) as [d|e'] eqn:P; simpl; [discriminate|].
      intros H. injection H as ->. left. eauto.
    + destruct (clicked inp "Use default processed CSV"); simpl;
        [|discriminate].
      destruct (pd_read_csv inp DEFAULT_CSV) as [d|e'] eqn:P; simpl;
        [discriminate|].
      destruct e'; simpl; try discriminate;
        intros H; injection H as <-; right; left;
        repeat split; auto; discriminate.
Qed.

Lemma fault_origins_witness :
  let reviews := mkReviews ["cleaned_content"] [["love it"]] in
  let inp := mkInputs (fun _ => None) (fun _ => Ok reviews)
               (Some "cleaned_content,love it")
               (String.eqb "Run Feature Specific Analysis")
               (fun _ _ => Ok None) in
  let f := mkResultFrame ["label"; "confidence"]
             [mkRow "" "POSITIVE" (9 # 10)] in
  let analyze := fun (_ : ReviewsTable) (_ : string) => Ok (Some f) in
  let e := KeyError "bucket" in
  (exists f, uploaded_file inp = Some f /\ parse_csv inp f = Raise e)
  \/ (uploaded_file inp = None
      /\ clicked inp "Use default processed CSV" = true
      /\ pd_read_csv inp DEFAULT_CSV = Raise e
      /\ e <> FileNotFoundError)
  \/ (exists d,
        result (load inp) = Ok (Some d)
        /\ clicked inp "Run Feature Specific Analysis" = true
        /\ (analyze d "cleaned_content" = Raise e
            \/ exists f,
                 analyze d "cleaned_content" = Ok (Some f)
                 /\ rf_empty f = false
                 /\ ((rf_has f "confidence" = false
                      /\ e = KeyError "confidence")
                     \/ (rf_has f "confidence" = true
                         /\ rf_has f "bucket" = false
                         /\ e = KeyError "bucket")
                     \/ (rf_has f "confidence" = true
                         /\ rf_has f "bucket" = true
                         /\ rf_has f "label" = false
                         /\ e = KeyError "Column not found: label")))).
Proof.
  intros reviews inp f analyze e.
  apply (fault_origins inp analyze e). reflexivity.
Defined.
